(** * cryptopulse: the search aggregator of [app.py]

    A shallow embedding of the relevance scorer, the four source fetchers
    and the aggregator of [app.py], and the properties of its
    specification stated over that embedding.

    Modelling conventions.
    - A Python [str] is a Rocq [string] whose characters are the code points
      0..255 (Latin-1).  On that range [str.lower] keeps the length and
      [str.split] splits at twelve white-space characters; both are written
      out below.
    - A Python [float] that carries a score is a rational [Q]: the literals
      0.5, 0.95, 0.9 and 0.4 are 1/2, 19/20, 9/10 and 2/5 and the arithmetic
      of [calculate_relevance_score] is exact.
    - A value decoded from a response body is a [pyval]; an operation that
      Python rejects on a value of the wrong type raises, which is a [Raise]
      in the result type [res].
    - [print] calls write to the standard output only and are left out. *)

From Stdlib Require Import List Bool Arith ZArith QArith Lia Lqa.
From Stdlib Require Import Ascii String.
From Stdlib Require Import Permutation Sorted.
Import ListNotations.

#[local] Set Warnings "-register-all".

Local Close Scope Q_scope.

Local Open Scope list_scope.
Local Open Scope string_scope.

(* ------------------------------------------------------------------ *)
(** ** Python strings *)
(* ------------------------------------------------------------------ *)

Module PyStr.

(** [c.lower()] for a code point below 256: A-Z and the accented capitals
    U+00C0..U+00DE (U+00D7, the multiplication sign, apart) move up by 32. *)
Definition chr_lower (c : ascii) : ascii :=
  let n := N_of_ascii c in
  if ((65 <=? n) && (n <=? 90))%N
     || ((192 <=? n) && (n <=? 222) && negb (n =? 215))%N
  then ascii_of_N (n + 32)
  else c.

(** [s.lower()] *)
Fixpoint lower (s : string) : string :=
  match s with
  | EmptyString => EmptyString
  | String c s' => String (chr_lower c) (lower s')
  end.

(** [c.isspace()] for a code point below 256. *)
Definition is_space (c : ascii) : bool :=
  let n := N_of_ascii c in
  (((9 <=? n) && (n <=? 13)) || ((28 <=? n) && (n <=? 32))
   || (n =? 133) || (n =? 160))%N.

(** [s.startswith(p)] *)
Fixpoint starts_with (s p : string) {struct p} : bool :=
  match p with
  | EmptyString => true
  | String a p' =>
      match s with
      | EmptyString => false
      | String b s' => Ascii.eqb a b && starts_with s' p'
      end
  end.

(** [needle in hay]: [needle] starts at some position of [hay]. *)
Fixpoint contains (hay needle : string) : bool :=
  starts_with hay needle
  || match hay with
     | EmptyString => false
     | String _ hay' => contains hay' needle
     end.

(** The scanning loop of [s.split()]: [cur] is the word being read. *)
Fixpoint split_from (cur s : string) : list string :=
  match s with
  | EmptyString =>
      match cur with EmptyString => [] | _ => [cur] end
  | String c s' =>
      if is_space c then
        match cur with
        | EmptyString => split_from EmptyString s'
        | _ => cur :: split_from EmptyString s'
        end
      else split_from (cur ++ String c EmptyString) s'
  end.

(** [s.split()] with no separator: the maximal runs without white space. *)
Definition split (s : string) : list string := split_from EmptyString s.

(** [sep.join(parts)] *)
Fixpoint join (sep : string) (parts : list string) : string :=
  match parts with
  | [] => EmptyString
  | [p] => p
  | p :: ps => p ++ sep ++ join sep ps
  end.

(** [s[:n]] *)
Fixpoint take (n : nat) (s : string) : string :=
  match n, s with
  | S n', String c s' => String c (take n' s')
  | _, _ => EmptyString
  end.

(** The characters of [s], as [for c in s] yields them. *)
Fixpoint chars (s : string) : list string :=
  match s with
  | EmptyString => []
  | String c s' => String c EmptyString :: chars s'
  end.

(** [a] occurs in [b] as a contiguous block. *)
Definition is_substring (a b : string) : Prop :=
  exists pre post, b = pre ++ a ++ post.

End PyStr.

(* ------------------------------------------------------------------ *)
(** ** Python values and exceptions *)
(* ------------------------------------------------------------------ *)

(** A float as JSON decoding can produce it. *)
Inductive pyfloat : Type :=
| FNaN
| FInf (negative : bool)
| FFin (q : Q).

(** The values [response.json()] returns.  A [PDict] lists its items in
    insertion order, every key once. *)
Inductive pyval : Type :=
| PNone
| PBool (b : bool)
| PInt (z : Z)
| PFloat (f : pyfloat)
| PStr (s : string)
| PList (l : list pyval)
| PDict (d : list (string * pyval)).

(** The exceptions the modelled operations raise, all of them caught by
    [except Exception].  Which one is raised shows in the log only. *)
Inductive pyexn : Type :=
| AttributeError
| TypeError
| ValueError
| OverflowError
| RequestException
| JSONDecodeError.

(** The outcome of running a Python expression or block. *)
Inductive res (A : Type) : Type :=
| Ok (a : A)
| Raise (e : pyexn).

Arguments Ok {A} a.
Arguments Raise {A} e.

Definition bind {A B : Type} (r : res A) (k : A -> res B) : res B :=
  match r with
  | Ok a => k a
  | Raise e => Raise e
  end.

Declare Scope py_scope.
Delimit Scope py_scope with py.
Notation "x <- e ;; k" := (bind e (fun x => k))
  (at level 61, e at next level, right associativity) : py_scope.
Notation "e ;;; k" := (bind e (fun _ => k))
  (at level 61, right associativity) : py_scope.
Local Open Scope py_scope.

Module Py.

(** [bool(v)] *)
Definition truthy (v : pyval) : bool :=
  match v with
  | PNone => false
  | PBool b => b
  | PInt z => negb (z =? 0)%Z
  | PFloat FNaN => true
  | PFloat (FInf _) => true
  | PFloat (FFin q) => negb (Qeq_bool q 0%Q)
  | PStr s => negb (Nat.eqb (String.length s) 0)
  | PList l => negb (Nat.eqb (List.length l) 0)
  | PDict d => negb (Nat.eqb (List.length d) 0)
  end.

(** [v.lower()]: only [str] has the method. *)
Definition lower (v : pyval) : res string :=
  match v with
  | PStr s => Ok (PyStr.lower s)
  | _ => Raise AttributeError
  end.

Fixpoint lookup (d : list (string * pyval)) (key : string) : option pyval :=
  match d with
  | [] => None
  | (k, v) :: d' => if String.eqb k key then Some v else lookup d' key
  end.

(** [obj.get(key, default)]: only [dict] has the method. *)
Definition get (obj : pyval) (key : string) (default : pyval) : res pyval :=
  match obj with
  | PDict d =>
      match lookup d key with
      | Some v => Ok v
      | None => Ok default
      end
  | _ => Raise AttributeError
  end.

(** [obj[:n]]: lists and strings are sliced, everything else raises. *)
Definition slice_to (obj : pyval) (n : nat) : res pyval :=
  match obj with
  | PList l => Ok (PList (firstn n l))
  | PStr s => Ok (PStr (PyStr.take n s))
  | _ => Raise TypeError
  end.

(** The items [for x in obj] visits. *)
Definition iter (obj : pyval) : res (list pyval) :=
  match obj with
  | PList l => Ok l
  | PStr s => Ok (map PStr (PyStr.chars s))
  | PDict d => Ok (map (fun kv => PStr (fst kv)) d)
  | _ => Raise TypeError
  end.

(** [obj.items()]: only [dict] has the method. *)
Definition items (obj : pyval) : res (list (string * pyval)) :=
  match obj with
  | PDict d => Ok d
  | _ => Raise AttributeError
  end.

(** [a or b], with [b] evaluated only when [a] is falsy. *)
Definition or_else (a : pyval) (b : res pyval) : res pyval :=
  if truthy a then Ok a else b.

(** [v > 0] *)
Definition gt_zero (v : pyval) : res bool :=
  match v with
  | PBool b => Ok b
  | PInt z => Ok (0 <? z)%Z
  | PFloat FNaN => Ok false
  | PFloat (FInf negative) => Ok (negb negative)
  | PFloat (FFin q) => Ok (negb (Qle_bool q 0%Q))
  | _ => Raise TypeError
  end.

End Py.

(* ------------------------------------------------------------------ *)
(** ** The relevance scorer *)
(* ------------------------------------------------------------------ *)

(** [calculate_relevance_score(query, text)], app.py lines 294-316. *)
Definition calculate_relevance_score (query text : pyval) : res Q :=
  if negb (Py.truthy query) || negb (Py.truthy text) then Ok (1 # 2)%Q
  else
    query_lower <- Py.lower query ;;
    text_lower <- Py.lower text ;;
    if PyStr.contains text_lower query_lower then Ok (19 # 20)%Q
    else
      let query_words :=
        filter (fun w => Nat.ltb 3 (String.length w)) (PyStr.split query_lower) in
      match query_words with
      | [] => Ok (1 # 2)%Q
      | _ =>
          let matches :=
            list_sum (map (fun _ => 1)
                        (filter (fun word => PyStr.contains text_lower word)
                           query_words)) in
          Ok ((1 # 2)
              + (inject_Z (Z.of_nat matches)
                 / inject_Z (Z.of_nat (List.length query_words)))
                * (2 # 5))%Q
      end.

(* ------------------------------------------------------------------ *)
(** ** Search results and [list.sort] *)
(* ------------------------------------------------------------------ *)

(** The dict every fetcher appends:
    [{"result_metadata": {"score": ...}, "title": ..., "body": ...,
      "url": ..., "highlight": {"body": [...]}}]. *)
Record SearchResult : Type := {
  score : Q;
  title : pyval;
  body : pyval;
  url : pyval;
  highlight_body : list pyval
}.

Section Sort.
Context {A : Type} (key : A -> Q).

(** [x] goes in front of the first element whose key is not smaller, so
    in front of the elements with an equal key. *)
Fixpoint insert_asc (x : A) (l : list A) : list A :=
  match l with
  | [] => [x]
  | y :: l' =>
      if Qle_bool (key x) (key y) then x :: y :: l'
      else y :: insert_asc x l'
  end.

(** A stable ascending sort: equal keys keep their order. *)
Fixpoint sort_asc (l : list A) : list A :=
  match l with
  | [] => []
  | x :: l' => insert_asc x (sort_asc l')
  end.

(** [l.sort(key=key, reverse=reverse)].  With [reverse] the list is
    reversed, sorted ascending and reversed again, which is how the
    interpreter keeps the sort stable.  The interpreter runs another
    stable algorithm than insertion; a stable sort has a single outcome
    ([py_sort_reverse_unique] below), so the lists are the same. *)
Definition py_sort (reverse : bool) (l : list A) : list A :=
  if reverse then rev (sort_asc (rev l)) else sort_asc l.
End Sort.

(* ------------------------------------------------------------------ *)
(** ** The outside world *)
(* ------------------------------------------------------------------ *)

(** What a fetcher reads of a [requests] response. *)
Record response : Type := {
  status_code : Z;
  json : res pyval          (* [response.json()] *)
}.

(** [requests.get(url, timeout=10)]: a response, or an exception (no
    connection, time-out, ...). *)
Definition network : Type := string -> res response.

(** The module-level API keys, read from the environment at start-up. *)
Record config : Type := {
  CRYPTOPANIC_API_KEY : string;
  NEWSAPI_KEY : string
}.

(** Text rendering that depends on tables of the interpreter (the Unicode
    case mappings, the printing of numbers and containers). *)
Record text_prims : Type := {
  py_repr : pyval -> string;                    (* [str(v)], [v] not a [str] *)
  str_upper : string -> string;                 (* [s.upper()] *)
  str_capitalize : string -> string;            (* [s.capitalize()] *)
  render_fixed : bool -> nat -> pyval -> string (* [format(v, ',.2f')] on a number *)
}.

(** String literals of the source outside Latin-1, as their UTF-8 bytes. *)
Definition utf8 (bytes : list nat) : string :=
  string_of_list_ascii (map ascii_of_nat bytes).

Definition FIRE : string := utf8 [240; 159; 148; 165].
Definition CHART_UP : string := utf8 [240; 159; 147; 136].
Definition CHART_DOWN : string := utf8 [240; 159; 147; 137].

(* ------------------------------------------------------------------ *)
(** ** Blocks that fill [results] *)
(* ------------------------------------------------------------------ *)

(** A block of a fetcher runs on the list [results] built so far and
    leaves the list it has reached, together with its value or the
    exception that stopped it. *)
Definition block (A : Type) : Type :=
  list SearchResult -> list SearchResult * res A.

Module Block.

Definition ret {A : Type} (a : A) : block A := fun results => (results, Ok a).

Definition lift {A : Type} (r : res A) : block A := fun results => (results, r).

Definition seq {A B : Type} (b : block A) (k : A -> block B) : block B :=
  fun results =>
    match b results with
    | (results', Ok a) => k a results'
    | (results', Raise e) => (results', Raise e)
    end.

(** [results.append(r)] *)
Definition append (r : SearchResult) : block unit :=
  fun results => (results ++ [r], Ok tt)%list.

(** [for x in items: results.append(mk(x))] *)
Fixpoint for_append {A : Type} (mk : A -> res SearchResult) (items : list A)
  : block unit :=
  match items with
  | [] => ret tt
  | x :: items' =>
      seq (lift (mk x)) (fun r => seq (append r) (fun _ => for_append mk items'))
  end.

(** [try: b  except Exception as e: print(...)] *)
Definition try_except (b : block unit) : block unit :=
  fun results =>
    match b results with
    | (results', Ok _) => (results', Ok tt)
    | (results', Raise _) => (results', Ok tt)
    end.

End Block.

Declare Scope block_scope.
Delimit Scope block_scope with block.
Notation "x <- e ;; k" := (Block.seq e (fun x => k))
  (at level 61, e at next level, right associativity) : block_scope.
Notation "e ;;; k" := (Block.seq e (fun _ => k))
  (at level 61, right associativity) : block_scope.

(* ------------------------------------------------------------------ *)
(** ** The source fetchers *)
(* ------------------------------------------------------------------ *)

Section Fetchers.
Variable P : text_prims.
Variable cfg : config.
Variable net : network.

(** [f"{v}"] *)
Definition fstr (v : pyval) : string :=
  match v with
  | PStr s => s
  | _ => py_repr P v
  end.

(** [float(z)] overflows from 2^1024 - 2^970 on, where rounding to the
    nearest double leaves the finite range. *)
Definition float_overflows (z : Z) : bool :=
  (2 ^ 1024 - 2 ^ 970 <=? Z.abs z)%Z.

(** [f"{v:,.2f}"], [f"{v:.2f}"], [f"{v:,.0f}"]: numbers only. *)
Definition format_f (comma : bool) (prec : nat) (v : pyval) : res string :=
  match v with
  | PBool _ | PFloat _ => Ok (render_fixed P comma prec v)
  | PInt z =>
      if float_overflows z then Raise OverflowError
      else Ok (render_fixed P comma prec v)
  | PStr _ => Raise ValueError
  | PNone | PList _ | PDict _ => Raise TypeError
  end.

(** [v.upper()]: only [str] has the method. *)
Definition upper (v : pyval) : res string :=
  match v with
  | PStr s => Ok (str_upper P s)
  | _ => Raise AttributeError
  end.

(** *** CryptoPanic, lines 81-138 *)

Definition coin_filters : list (string * string) :=
  [("bitcoin", "BTC"); ("btc", "BTC"); ("ethereum", "ETH");
   ("eth", "ETH"); ("solana", "SOL"); ("sol", "SOL")].

(** Lines 101-104: the first keyword found in the query adds its
    currency to the URL, and the loop stops there. *)
Fixpoint add_currency_filter (filters : list (string * string))
    (query_lower url : string) : string :=
  match filters with
  | [] => url
  | (keyword, currency) :: filters' =>
      if PyStr.contains query_lower keyword
      then url ++ "&currencies=" ++ currency
      else add_currency_filter filters' query_lower url
  end.

(** Lines 113-131: the record appended for one post. *)
Definition cryptopanic_result (query post : pyval) : res SearchResult :=
  (post_title <- Py.get post "title" (PStr "") ;;
   sc <- calculate_relevance_score query post_title ;;
   source <- Py.get post "source" (PDict []) ;;
   source_title <- Py.get source "title" (PStr "") ;;
   published_at <- Py.get post "published_at" (PStr "") ;;
   post_url <- Py.get post "url" (PStr "") ;;
   source_name <- Py.get source "title" (PStr "Unknown") ;;
   votes <- Py.get post "votes" (PDict []) ;;
   positive <- Py.get votes "positive" (PInt 0) ;;
   Ok {| score := sc;
         title := post_title;
         body := PStr (fstr post_title ++ ". " ++ fstr source_title ++ " - "
                       ++ "Published: " ++ fstr published_at);
         url := post_url;
         highlight_body :=
           [post_title;
            PStr ("Source: " ++ fstr source_name);
            PStr ("Votes: " ++ fstr positive)] |})%py.

(** Lines 88-104: the URL asked for. *)
Definition cryptopanic_url (query_lower : string) : string :=
  let url := "https://cryptopanic.com/api/v1/posts/?auth_token="
             ++ CRYPTOPANIC_API_KEY cfg ++ "&public=true" in
  add_currency_filter coin_filters query_lower url.

(** Line 112: what the loop runs over, [data.get('results', [])[:5]]. *)
Definition cryptopanic_posts (data : pyval) : res (list pyval) :=
  (found <- Py.get data "results" (PList []) ;;
   head <- Py.slice_to found 5 ;;
   Py.iter head)%py.

(** Lines 88-133: the body of the [try]. *)
Definition cryptopanic_try (query : pyval) : block unit :=
  (query_lower <- Block.lift (Py.lower query) ;;
   let url := cryptopanic_url query_lower in
   response <- Block.lift (net url) ;;
   if (status_code response =? 200)%Z then
     data <- Block.lift (json response) ;;
     posts <- Block.lift (cryptopanic_posts data) ;;
     Block.for_append (cryptopanic_result query) posts
   else Block.ret tt)%block.

Definition fetch_from_cryptopanic (query : pyval)
  : res (list SearchResult) :=
  let results := [] in
  let '(results, _) := Block.try_except (cryptopanic_try query) results in
  Ok results.

(** *** CoinGecko trending, lines 140-178 *)

(** Lines 154-173: the record appended for one trending coin. *)
Definition coingecko_result (query coin : pyval) : res SearchResult :=
  (coin_data <- Py.get coin "item" (PDict []) ;;
   name <- Py.get coin_data "name" (PStr "") ;;
   sc <- calculate_relevance_score query name ;;
   symbol <- Py.get coin_data "symbol" (PStr "") ;;
   symbol_upper <- upper symbol ;;
   rank <- Py.get coin_data "market_cap_rank" (PStr "N/A") ;;
   data <- Py.get coin_data "data" (PDict []) ;;
   price <- Py.get data "price" (PStr "N/A") ;;
   coin_id <- Py.get coin_data "id" (PStr "") ;;
   total_volume <- Py.get data "total_volume" (PStr "N/A") ;;
   Ok {| score := sc;
         title := PStr (FIRE ++ " " ++ fstr name ++ " (" ++ symbol_upper
                        ++ ") - Trending");
         body := PStr (fstr name ++ " is currently trending on CoinGecko. "
                       ++ "Market Cap Rank: #" ++ fstr rank ++ ". "
                       ++ "Price: $" ++ fstr price);
         url := PStr ("https://www.coingecko.com/en/coins/" ++ fstr coin_id);
         highlight_body :=
           [PStr (FIRE ++ " Trending: " ++ fstr name);
            PStr ("Rank: #" ++ fstr rank);
            PStr ("24h Volume: $" ++ fstr total_volume)] |})%py.

Definition coingecko_url : string :=
  "https://api.coingecko.com/api/v3/search/trending".

(** Line 153: what the loop runs over, [data.get('coins', [])[:3]]. *)
Definition coingecko_coins (data : pyval) : res (list pyval) :=
  (found <- Py.get data "coins" (PList []) ;;
   head <- Py.slice_to found 3 ;;
   Py.iter head)%py.

(** Lines 147-173: the body of the [try]. *)
Definition coingecko_try (query : pyval) : block unit :=
  (let url := coingecko_url in
   response <- Block.lift (net url) ;;
   if (status_code response =? 200)%Z then
     data <- Block.lift (json response) ;;
     coins <- Block.lift (coingecko_coins data) ;;
     Block.for_append (coingecko_result query) coins
   else Block.ret tt)%block.

Definition fetch_from_coingecko (query : pyval) : res (list SearchResult) :=
  let results := [] in
  let '(results, _) := Block.try_except (coingecko_try query) results in
  Ok results.

(** *** CoinGecko prices, lines 180-251 *)

Definition coin_map : list (string * string) :=
  [("bitcoin", "bitcoin"); ("btc", "bitcoin"); ("ethereum", "ethereum");
   ("eth", "ethereum"); ("solana", "solana"); ("sol", "solana");
   ("cardano", "cardano"); ("ada", "cardano"); ("xrp", "ripple");
   ("ripple", "ripple")].

(** Lines 204-206: every keyword found in the query appends its id. *)
Fixpoint collect_coin_ids (entries : list (string * string))
    (query_lower : string) (coin_ids : list string) : list string :=
  match entries with
  | [] => coin_ids
  | (keyword, coin_id) :: entries' =>
      collect_coin_ids entries' query_lower
        (if PyStr.contains query_lower keyword
         then (coin_ids ++ [coin_id])%list
         else coin_ids)
  end.

(** Lines 201-210: the ids to ask for. *)
Definition select_coin_ids (query_lower : string) : list string :=
  let coin_ids := collect_coin_ids coin_map query_lower [] in
  match coin_ids with
  | [] => ["bitcoin"; "ethereum"; "solana"]
  | _ => coin_ids
  end.

(** Lines 225-246: the record appended for one entry of the response. *)
Definition price_result (entry : string * pyval) : res SearchResult :=
  let '(coin_id, price_data) := entry in
  (change_24h <- Py.get price_data "usd_24h_change" (PInt 0) ;;
   rising <- Py.gt_zero change_24h ;;
   let emoji := if rising then CHART_UP else CHART_DOWN in
   usd <- Py.get price_data "usd" (PInt 0) ;;
   usd_text <- format_f true 2 usd ;;
   change_text <- format_f false 2 change_24h ;;
   market_cap <- Py.get price_data "usd_market_cap" (PInt 0) ;;
   market_cap_text <- format_f true 0 market_cap ;;
   Ok {| score := (9 # 10)%Q;
         title := PStr (emoji ++ " " ++ str_capitalize P coin_id
                        ++ " Price Update");
         body := PStr (str_capitalize P coin_id ++ " is trading at $"
                       ++ usd_text ++ " " ++ "with a 24h change of "
                       ++ change_text ++ "%. " ++ "Market Cap: $"
                       ++ market_cap_text);
         url := PStr ("https://www.coingecko.com/en/coins/" ++ coin_id);
         highlight_body :=
           [PStr ("Price: $" ++ usd_text);
            PStr ("24h Change: " ++ change_text ++ "%");
            PStr ("Market Cap: $" ++ market_cap_text)] |})%py.

(** Lines 213-218: the URL asked for. *)
Definition prices_url (coin_ids : list string) : string :=
  let ids := PyStr.join "," coin_ids in
  "https://api.coingecko.com/api/v3/simple/price"
  ++ "?ids=" ++ ids ++ "&vs_currencies=usd"
  ++ "&include_24hr_change=true&include_market_cap=true".

(** Lines 213-246: the body of the [try]. *)
Definition prices_try (coin_ids : list string) : block unit :=
  (let url := prices_url coin_ids in
   response <- Block.lift (net url) ;;
   if (status_code response =? 200)%Z then
     data <- Block.lift (json response) ;;
     entries <- Block.lift (Py.items data) ;;
     Block.for_append price_result entries
   else Block.ret tt)%block.

Definition fetch_crypto_prices (query : pyval) : res (list SearchResult) :=
  let results := [] in
  (query_lower <- Py.lower query ;;
   let coin_ids := select_coin_ids query_lower in
   let '(results, _) := Block.try_except (prices_try coin_ids) results in
   Ok results)%py.

(** *** NewsAPI, lines 253-292 *)

(** Lines 273-287: the record appended for one article. *)
Definition newsapi_result (query article : pyval) : res SearchResult :=
  (article_title <- Py.get article "title" (PStr "") ;;
   sc <- calculate_relevance_score query article_title ;;
   description <- Py.get article "description" (PStr "") ;;
   article_body <- Py.or_else description
     (content <- Py.get article "content" (PStr "") ;;
      Py.slice_to content 200) ;;
   article_url <- Py.get article "url" (PStr "") ;;
   source <- Py.get article "source" (PDict []) ;;
   source_name <- Py.get source "name" (PStr "Unknown") ;;
   published_at <- Py.get article "publishedAt" (PStr "") ;;
   Ok {| score := sc;
         title := article_title;
         body := article_body;
         url := article_url;
         highlight_body :=
           [article_title;
            PStr ("Source: " ++ fstr source_name);
            PStr ("Published: " ++ fstr published_at)] |})%py.

(** Lines 262-265: the URL asked for. *)
Definition newsapi_url : string :=
  "https://newsapi.org/v2/everything"
  ++ "?q=cryptocurrency OR bitcoin OR ethereum"
  ++ "&apiKey=" ++ NEWSAPI_KEY cfg
  ++ "&sortBy=publishedAt&pageSize=5".

(** Line 272: what the loop runs over, [data.get('articles', [])[:3]]. *)
Definition newsapi_articles (data : pyval) : res (list pyval) :=
  (found <- Py.get data "articles" (PList []) ;;
   head <- Py.slice_to found 3 ;;
   Py.iter head)%py.

(** Lines 262-287: the body of the [try]. *)
Definition newsapi_try (query : pyval) : block unit :=
  (let url := newsapi_url in
   response <- Block.lift (net url) ;;
   if (status_code response =? 200)%Z then
     data <- Block.lift (json response) ;;
     articles <- Block.lift (newsapi_articles data) ;;
     Block.for_append (newsapi_result query) articles
   else Block.ret tt)%block.

Definition fetch_from_newsapi (query : pyval) : res (list SearchResult) :=
  let results := [] in
  let '(results, _) := Block.try_except (newsapi_try query) results in
  Ok results.

(* ---------------------------------------------------------------- *)
(** ** The aggregator, lines 53-79 *)
(* ---------------------------------------------------------------- *)

(** Lines 77-79: sort by score, highest first, and keep ten. *)
Definition rank_and_limit (results : list SearchResult)
  : list SearchResult :=
  let results := py_sort score true results in
  firstn 10 results.

(** [results.extend(fetch(query))] behind [if key:]. *)
Definition extend_if (key : string)
    (fetch : pyval -> res (list SearchResult)) (query : pyval)
    (results : list SearchResult) : res (list SearchResult) :=
  if Py.truthy (PStr key)
  then (more <- fetch query ;; Ok (results ++ more)%list)%py
  else Ok results.

Definition fetch_crypto_news (query filter_param : pyval)
  : res (list SearchResult) :=
  let results := [] in
  (coingecko_results <- fetch_from_coingecko query ;;
   let results := (results ++ coingecko_results)%list in
   results <- extend_if (CRYPTOPANIC_API_KEY cfg)
                fetch_from_cryptopanic query results ;;
   market_results <- fetch_crypto_prices query ;;
   let results := (results ++ market_results)%list in
   results <- extend_if (NEWSAPI_KEY cfg)
                fetch_from_newsapi query results ;;
   Ok (rank_and_limit results))%py.
End Fetchers.

(* ------------------------------------------------------------------ *)
(** ** Vocabulary of the specification *)
(* ------------------------------------------------------------------ *)

(** The run [r] ends normally with the score [v]. *)
Definition returns (r : res Q) (v : Q) : Prop :=
  exists s, r = Ok s /\ (s == v)%Q.

(** The run [r] ends normally with a score between [lo] and [hi]. *)
Definition returns_within (r : res Q) (lo hi : Q) : Prop :=
  exists s, r = Ok s /\ (lo <= s)%Q /\ (s <= hi)%Q.

(** The words of the lowercased query that are longer than 3 characters,
    one entry per occurrence. *)
Definition long_words (query : string) : list string :=
  filter (fun w => Nat.ltb 3 (String.length w))
    (PyStr.split (PyStr.lower query)).

(** Those of [words] that occur in the lowercased text. *)
Definition words_in (text : string) (words : list string) : list string :=
  filter (PyStr.contains (PyStr.lower text)) words.

(** [n / d] as a rational. *)
Definition fraction (n d : nat) : Q :=
  (inject_Z (Z.of_nat n) / inject_Z (Z.of_nat d))%Q.
Section Orders.
Context {A : Type} (key : A -> Q).

(** Highest key first. *)
Definition descending (a b : A) : Prop := (key b <= key a)%Q.

Definition ascending (a b : A) : Prop := (key a <= key b)%Q.

(** The elements of [l] whose key equals [k], in the order of [l]. *)
Definition with_key (k : Q) (l : list A) : list A :=
  filter (fun x => Qeq_bool (key x) k) l.

(** [l] is an initial segment of [whole]. *)
Definition starts (l whole : list A) : Prop :=
  exists rest, whole = (l ++ rest)%list.
End Orders.

(** The records a loop appends: one per item, up to the first item on
    which [mk] raises. *)
Fixpoint records_until_error {A : Type} (mk : A -> res SearchResult)
    (items : list A) : list SearchResult :=
  match items with
  | [] => []
  | x :: items' =>
      match mk x with
      | Ok r => r :: records_until_error mk items'
      | Raise _ => []
      end
  end.

(** How that loop ends: normally, or with the first exception of [mk]. *)
Fixpoint first_error {A : Type} (mk : A -> res SearchResult)
    (items : list A) : res unit :=
  match items with
  | [] => Ok tt
  | x :: items' =>
      match mk x with
      | Ok _ => first_error mk items'
      | Raise e => Raise e
      end
  end.

(** [mk] maps the item [x] without raising. *)
Definition maps_ok {A : Type} (mk : A -> res SearchResult) (x : A) : Prop :=
  exists r, mk x = Ok r.

(** The outbound call for [url] gives no item to map: the call raises, the
    status is not 200, the body does not decode, or reading the items off
    the decoded body with [extract] raises. *)
Inductive fetch_failed {A : Type} (net : network) (url : string)
    (extract : pyval -> res A) : Prop :=
| call_raises (e : pyexn) :
    net url = Raise e -> fetch_failed net url extract
| status_not_200 (resp : response) :
    net url = Ok resp -> status_code resp <> 200%Z ->
    fetch_failed net url extract
| body_not_json (resp : response) (e : pyexn) :
    net url = Ok resp -> status_code resp = 200%Z -> json resp = Raise e ->
    fetch_failed net url extract
| body_malformed (resp : response) (data : pyval) (e : pyexn) :
    net url = Ok resp -> status_code resp = 200%Z -> json resp = Ok data ->
    extract data = Raise e ->
    fetch_failed net url extract.

(** The outbound call for [url] answers 200 with a body from which
    [extract] reads [items]. *)
Definition fetch_succeeded {A : Type} (net : network) (url : string)
    (extract : pyval -> res A) (items : A) : Prop :=
  exists resp data,
    net url = Ok resp /\ status_code resp = 200%Z
    /\ json resp = Ok data /\ extract data = Ok items.

(** The list a fetcher hands back, empty if it raised. *)
Definition results_of (r : res (list SearchResult)) : list SearchResult :=
  match r with
  | Ok results => results
  | Raise _ => []
  end.

(** The candidate text of a trending coin: its name. *)
Definition coin_name (coin : pyval) : res pyval :=
  (coin_data <- Py.get coin "item" (PDict []) ;;
   Py.get coin_data "name" (PStr ""))%py.

(** The candidate text of a post or an article: its title. *)
Definition item_title (item : pyval) : res pyval :=
  Py.get item "title" (PStr "").

(** The score of [r] is the relevance of the text of [x] to [query]. *)
Definition scored_by (query : pyval) (text_of : pyval -> res pyval)
    (x : pyval) (r : SearchResult) : Prop :=
  exists text,
    text_of x = Ok text /\ calculate_relevance_score query text = Ok (score r).

(** The outbound call for [url] answers 200 with an object that holds the
    list [l] under [key]. *)
Definition responds_with_list (net : network) (url key : string)
    (l : list pyval) : Prop :=
  exists resp data,
    net url = Ok resp /\ status_code resp = 200%Z
    /\ json resp = Ok data /\ Py.get data key (PList []) = Ok (PList l).

(** [rs] are the records of an initial segment of [items], each made by
    [mk] and scored as [scored] says; of all of [items] when [mk] raises on
    none. *)
Definition maps_items {A : Type} (mk : A -> res SearchResult)
    (scored : A -> SearchResult -> Prop) (items : list A)
    (rs : list SearchResult) : Prop :=
  (exists mapped,
      starts mapped items
      /\ Forall2 (fun x r => mk x = Ok r /\ scored x r) mapped rs)
  /\ (Forall (maps_ok mk) items -> List.length rs = List.length items).

Section Outputs.
Variable P : text_prims.
Variable cfg : config.
Variable net : network.
Variable q : string.

(** What each source contributes to the aggregator for the query [q]. *)
Definition out_coingecko : list SearchResult :=
  results_of (fetch_from_coingecko P net (PStr q)).

Definition out_cryptopanic : list SearchResult :=
  if Py.truthy (PStr (CRYPTOPANIC_API_KEY cfg))
  then results_of (fetch_from_cryptopanic P cfg net (PStr q))
  else [].

Definition out_prices : list SearchResult :=
  results_of (fetch_crypto_prices P net (PStr q)).

Definition out_newsapi : list SearchResult :=
  if Py.truthy (PStr (NEWSAPI_KEY cfg))
  then results_of (fetch_from_newsapi P cfg net (PStr q))
  else [].

(** The concatenated source outputs, in the order of the calls. *)
Definition concatenated : list SearchResult :=
  (out_coingecko ++ out_cryptopanic ++ out_prices ++ out_newsapi)%list.
End Outputs.

(* ------------------------------------------------------------------ *)
(** ** Sample worlds *)
(* ------------------------------------------------------------------ *)

(** Worlds on which the model is run: a plain rendering of text, two API
    keys, and networks that answer from a table of routes. *)
Module Sample.

Definition chr_upper (c : ascii) : ascii :=
  let n := N_of_ascii c in
  if ((97 <=? n) && (n <=? 122))%N then ascii_of_N (n - 32) else c.

Fixpoint ascii_upper (s : string) : string :=
  match s with
  | EmptyString => EmptyString
  | String c s' => String (chr_upper c) (ascii_upper s')
  end.

Definition ascii_capitalize (s : string) : string :=
  match s with
  | EmptyString => EmptyString
  | String c s' => String (chr_upper c) (PyStr.lower s')
  end.

Definition prims : text_prims := {|
  py_repr := fun _ => "<value>";
  str_upper := ascii_upper;
  str_capitalize := ascii_capitalize;
  render_fixed := fun _ _ _ => "<number>"
|}.

Definition keys : config := {|
  CRYPTOPANIC_API_KEY := "cp-key";
  NEWSAPI_KEY := "news-key"
|}.

Definition ok_json (data : pyval) : response :=
  {| status_code := 200; json := Ok data |}.

Definition server_error : response :=
  {| status_code := 500; json := Raise JSONDecodeError |}.

(** A network that knows the URLs of [routes] and cannot reach any other. *)
Fixpoint serve (routes : list (string * response)) : network :=
  fun url =>
    match routes with
    | [] => Raise RequestException
    | (known, resp) :: routes' =>
        if String.eqb known url then Ok resp else serve routes' url
    end.

Definition trending_coin (id name symbol : string) (rank : Z) : pyval :=
  PDict [("item",
          PDict [("id", PStr id); ("name", PStr name);
                 ("symbol", PStr symbol); ("market_cap_rank", PInt rank);
                 ("data", PDict [("price", PFloat (FFin (3 # 2)));
                                 ("total_volume", PStr "$1,000")])])].

Definition post (headline : string) : pyval :=
  PDict [("title", PStr headline);
         ("url", PStr "https://example.org/post");
         ("published_at", PStr "2024-01-01T00:00:00Z");
         ("source", PDict [("title", PStr "Example")]);
         ("votes", PDict [("positive", PInt 3)])].

Definition article (headline : string) : pyval :=
  PDict [("title", PStr headline);
         ("description", PStr "An article.");
         ("url", PStr "https://example.org/article");
         ("source", PDict [("name", PStr "Example")]);
         ("publishedAt", PStr "2024-01-01T00:00:00Z")].

Definition price (usd market_cap : Z) (change : Q) : pyval :=
  PDict [("usd", PInt usd); ("usd_market_cap", PInt market_cap);
         ("usd_24h_change", PFloat (FFin change))].

Definition trending_coins : list pyval :=
  [trending_coin "bitcoin" "Bitcoin" "btc" 1;
   trending_coin "pepe" "Pepe" "pepe" 40;
   trending_coin "solana" "Solana" "sol" 5;
   trending_coin "dogecoin" "Dogecoin" "doge" 9].

Definition posts : list pyval :=
  [post "Bitcoin rallies today"; post "Markets calm";
   post "ETF inflows for bitcoin rise"; post "Miners expand";
   post "Fees drop"; post "A sixth headline"].

Definition articles : list pyval :=
  [article "Why bitcoin moved"; article "Ethereum upgrade";
   article "Regulators meet"; article "A fourth article"].

Definition one_price : list (string * pyval) :=
  [("bitcoin", price 60000 1200000000000 (5 # 4))].

Definition trending_body : pyval := PDict [("coins", PList trending_coins)].

Definition posts_body : pyval := PDict [("results", PList posts)].

Definition articles_body : pyval := PDict [("articles", PList articles)].

Definition one_price_body : pyval := PDict one_price.

(** Every source answers the query "bitcoin". *)
Definition net : network :=
  serve [(coingecko_url, ok_json trending_body);
         (cryptopanic_url keys "bitcoin", ok_json posts_body);
         (prices_url ["bitcoin"], ok_json one_price_body);
         (newsapi_url keys, ok_json articles_body)].

(** No source can be reached. *)
Definition net_down : network := serve [].

(** The trending source is down, the others answer. *)
Definition net_trending_down : network :=
  serve [(coingecko_url, server_error);
         (cryptopanic_url keys "bitcoin", ok_json posts_body);
         (prices_url ["bitcoin"], ok_json one_price_body);
         (newsapi_url keys, ok_json articles_body)].

(** The second post of the CryptoPanic answer is a number, not an object. *)
Definition net_broken_post : network :=
  serve [(cryptopanic_url keys "bitcoin",
          ok_json (PDict [("results",
                           PList [post "Bitcoin rallies today"; PInt 5])]))].

(** The price source answers the three default ids with six entries. *)
Definition net_six_prices : network :=
  serve [(prices_url ["bitcoin"; "ethereum"; "solana"],
          ok_json (PDict [("bitcoin", price 60000 1200000000000 (5 # 4));
                          ("ethereum", price 3000 360000000000 (-1 # 2));
                          ("solana", price 150 70000000000 (2 # 1));
                          ("cardano", price 1 20000000000 (0 # 1));
                          ("ripple", price 1 30000000000 (1 # 10));
                          ("dogecoin", price 1 10000000000 (1 # 5))]))].

(** A record with the score [s], as one of five a source returns. *)
Definition scored (s : Q) : SearchResult :=
  {| score := s; title := PStr "title"; body := PStr "body";
     url := PStr "https://example.org"; highlight_body := [] |}.

Definition five_results (s : Q) : list SearchResult :=
  [scored s; scored (s + (1 # 100)); scored (s + (2 # 100));
   scored (s + (3 # 100)); scored (s + (4 # 100))].

End Sample.

(* ------------------------------------------------------------------ *)
(** ** The endpoints, lines 15-51 and 318-334 *)
(* ------------------------------------------------------------------ *)

(** More literals outside Latin-1: the check mark and the warning sign
    (with its variation selector). *)
Definition CHECK_MARK : string := utf8 [226; 156; 133].
Definition WARNING : string := utf8 [226; 154; 160; 239; 184; 143].

(** What [request.get_json()] gives: the decoded body, or an exception of
    the framework (wrong content type, malformed JSON) with its text. *)
Inductive request_json : Type :=
| NoJson (message : string)
| Body (data : pyval).

(** What an endpoint answers: the status and the fields of the JSON body
    of [search]. *)
Record reply : Type := {
  http_status : Z;
  error : option string;
  search_results : list SearchResult
}.

(** [health_check()], lines 15-18. *)
Definition health_check : pyval * Z :=
  (PDict [("status", PStr "healthy")], 200%Z).

Section Endpoints.
Variable P : text_prims.
Variable cfg : config.
Variable net : network.
Variable exn_text : pyexn -> string.       (* [str(e)] *)

(** [search()], lines 20-51. *)
Definition search (request : request_json) : reply :=
  match request with
  | NoJson message =>
      {| http_status := 500; error := Some message; search_results := [] |}
  | Body data =>
      match
        (query <- Py.get data "query" (PStr "") ;;
         filter_param <- Py.get data "filter" (PStr "") ;;
         fetch_crypto_news P cfg net query filter_param)%py
      with
      | Ok news_results =>
          {| http_status := 200; error := None;
             search_results := news_results |}
      | Raise e =>
          {| http_status := 500; error := Some (exn_text e);
             search_results := [] |}
      end
  end.

(** [home()], lines 318-334. *)
Definition home : pyval :=
  PDict
    [("service", PStr "Crypto News API");
     ("version", PStr "2.0");
     ("status", PStr "running");
     ("data_sources",
      PDict
        [("coingecko",
          PStr (CHECK_MARK ++ " Active (Trending coins & prices)"));
         ("cryptopanic",
          PStr (if Py.truthy (PStr (CRYPTOPANIC_API_KEY cfg))
                then CHECK_MARK ++ " Active"
                else WARNING ++ " No API key"));
         ("newsapi",
          PStr (if Py.truthy (PStr (NEWSAPI_KEY cfg))
                then CHECK_MARK ++ " Active"
                else WARNING ++ " No API key"))]);
     ("endpoints",
      PDict [("/search", PStr "POST - Main search endpoint");
             ("/health", PStr "GET - Health check")])].
End Endpoints.

(* ------------------------------------------------------------------ *)
(** ** More vocabulary *)
(* ------------------------------------------------------------------ *)

Definition is_str (v : pyval) : bool :=
  match v with PStr _ => true | _ => false end.

Definition is_dict (v : pyval) : bool :=
  match v with PDict _ => true | _ => false end.

(** [d.get(key, default)] on the items of a dict. *)
Definition field (d : list (string * pyval)) (key : string)
    (default : pyval) : pyval :=
  match Py.lookup d key with
  | Some v => v
  | None => default
  end.

(** The scorer accepts [text] for the query [q]: it raises on a text that
    is truthy and not a string, unless the query is empty. *)
Definition scorable (q : string) (text : pyval) : Prop :=
  q = "" \/ Py.truthy text = false \/ is_str text = true.

(** [f"{v:.2f}"] accepts [v]: a bool, a float, or an int that fits a
    double. *)
Definition formattable (v : pyval) : bool :=
  match v with
  | PBool _ | PFloat _ => true
  | PInt z => negb ((2 ^ 1024 - 2 ^ 970 <=? Z.abs z)%Z)
  | _ => false
  end.

(** [v > 0] accepts [v]: a bool, an int or a float. *)
Definition is_number (v : pyval) : bool :=
  match v with
  | PBool _ | PInt _ | PFloat _ => true
  | _ => false
  end.

(** [v[:n]] accepts [v]: a list or a string. *)
Definition sliceable (v : pyval) : bool :=
  match v with
  | PList _ | PStr _ => true
  | _ => false
  end.

(** The score lies between 0.5 and 0.95. *)
Definition score_in_range (r : SearchResult) : Prop :=
  (1 # 2 <= score r)%Q /\ (score r <= 19 # 20)%Q.

(** The ids the coin table can produce. *)
Definition known_coin_ids : list string :=
  ["bitcoin"; "ethereum"; "solana"; "cardano"; "ripple"].

(** The CryptoPanic URL without a currency filter. *)
Definition cryptopanic_base (cfg : config) : string :=
  "https://cryptopanic.com/api/v1/posts/?auth_token="
  ++ CRYPTOPANIC_API_KEY cfg ++ "&public=true".

(** One of [keywords] occurs in [query_lower]. *)
Definition mentions (query_lower : string) (keywords : list string) : Prop :=
  exists keyword,
    In keyword keywords /\ PyStr.is_substring keyword query_lower.

(** The request carries a JSON object whose query, the empty string when
    missing, is the string [q]. *)
Definition asks_for (request : request_json) (q : string) : Prop :=
  exists d, request = Body (PDict d) /\ field d "query" (PStr "") = PStr q.

(** What [home] reports for [source] under "data_sources". *)
Definition reported (cfg : config) (source : string) : res pyval :=
  (sources <- Py.get (home cfg) "data_sources" (PDict []) ;;
   Py.get sources source PNone)%py.

Definition NO_API_KEY : pyval := PStr (WARNING ++ " No API key").

Definition ACTIVE : pyval := PStr (CHECK_MARK ++ " Active").

(** The score is exactly 0.5, or the 0.9 of a price update. *)
Definition half_or_price (r : SearchResult) : Prop :=
  score r = (1 # 2)%Q \/ score r = (9 # 10)%Q.

(** More sample worlds. *)
Module SampleMore.

(** No API key is configured. *)
Definition no_keys : config := {|
  CRYPTOPANIC_API_KEY := "";
  NEWSAPI_KEY := ""
|}.

(** Only the two sources that need no key can be reached. *)
Definition net_free_sources : network :=
  Sample.serve [(coingecko_url, Sample.ok_json Sample.trending_body);
                (prices_url ["bitcoin"], Sample.ok_json Sample.one_price_body)].

(** [str(e)] as the name of the exception. *)
Definition exn_name (e : pyexn) : string :=
  match e with
  | AttributeError => "AttributeError"
  | TypeError => "TypeError"
  | ValueError => "ValueError"
  | OverflowError => "OverflowError"
  | RequestException => "RequestException"
  | JSONDecodeError => "JSONDecodeError"
  end.

End SampleMore.

(* ------------------------------------------------------------------ *)
(** ** Examples *)
(* ------------------------------------------------------------------ *)

Example score_bitcoin_headline :
  calculate_relevance_score (PStr "bitcoin") (PStr "Bitcoin rallies today")
  = Ok (19 # 20)%Q.
Proof. reflexivity. Qed.

Example score_two_of_four :
  calculate_relevance_score (PStr "solana price crash today")
    (PStr "Price of Solana unchanged")
  = Ok ((1 # 2) + (2 # 4) * (2 # 5))%Q.
Proof. reflexivity. Qed.

(** A word that the query repeats counts once per occurrence. *)
Example score_repeated_word :
  calculate_relevance_score (PStr "bitcoin bitcoin ethereum")
    (PStr "Ethereum upgrade ships")
  = Ok ((1 # 2) + (1 # 3) * (2 # 5))%Q.
Proof. reflexivity. Qed.

Example score_of_a_number :
  calculate_relevance_score (PStr "bitcoin") (PInt 5) = Raise AttributeError
  /\ calculate_relevance_score (PStr "bitcoin") PNone = Ok (1 # 2)%Q.
Proof. split; reflexivity. Qed.

Example split_words :
  PyStr.split (PyStr.lower "  Solana  PRICE crash ")
  = ["solana"; "price"; "crash"].
Proof. reflexivity. Qed.

(** The aggregator on the sample world: twelve results come in, ten go
    out, and the four results scored 0.95 keep the order of their sources
    (trending, CryptoPanic twice, NewsAPI). *)
Example news_for_bitcoin :
  List.length (concatenated Sample.prims Sample.keys Sample.net "bitcoin") = 12
  /\ map (fun r => (Qred (score r), title r))
       (results_of (fetch_crypto_news Sample.prims Sample.keys Sample.net
                      (PStr "bitcoin") (PStr "")))
     = [((19 # 20)%Q, PStr (FIRE ++ " Bitcoin (BTC) - Trending"));
        ((19 # 20)%Q, PStr "Bitcoin rallies today");
        ((19 # 20)%Q, PStr "ETF inflows for bitcoin rise");
        ((19 # 20)%Q, PStr "Why bitcoin moved");
        ((9 # 10)%Q, PStr (CHART_UP ++ " Bitcoin Price Update"));
        ((1 # 2)%Q, PStr (FIRE ++ " Pepe (PEPE) - Trending"));
        ((1 # 2)%Q, PStr (FIRE ++ " Solana (SOL) - Trending"));
        ((1 # 2)%Q, PStr "Markets calm");
        ((1 # 2)%Q, PStr "Miners expand");
        ((1 # 2)%Q, PStr "Fees drop")].
Proof. split; vm_compute; reflexivity. Qed.

(* ------------------------------------------------------------------ *)
(** ** Facts about the string operations *)
(* ------------------------------------------------------------------ *)

Module PyStrFacts.
Import PyStr.

Lemma starts_with_app (a b : string) :
  starts_with b a = true <-> exists post, b = a ++ post.
Proof.
  revert b; induction a as [|c a IH]; intros b; simpl.
  - split; [intros _; now exists b | reflexivity].
  - destruct b as [|d b]; simpl.
    + split; [discriminate | intros [post H]; discriminate].
    + rewrite andb_true_iff, Ascii.eqb_eq, IH. split.
      * intros [-> [post ->]]. now exists post.
      * intros [post H]. inversion H. split; [reflexivity | now exists post].
Qed.

(** [contains] decides [is_substring]. *)
Lemma contains_spec (hay needle : string) :
  contains hay needle = true <-> is_substring needle hay.
Proof.
  unfold is_substring.
  induction hay as [|c hay IH]; simpl.
  - rewrite orb_false_r, starts_with_app. split.
    + intros [post H]. now exists "", post.
    + intros [pre [post H]]. destruct pre; [now exists post | discriminate].
  - rewrite orb_true_iff, starts_with_app, IH. split.
    + intros [[post H] | [pre [post H]]].
      * now exists "", post.
      * exists (String c pre), post. simpl. now rewrite H.
    + intros [pre [post H]]. destruct pre as [|d pre]; simpl in H.
      * left. now exists post.
      * right. inversion H. now exists pre, post.
Qed.

Lemma contains_false (hay needle : string) :
  contains hay needle = false <-> ~ is_substring needle hay.
Proof.
  rewrite <- contains_spec. destruct (contains hay needle); split; intros H;
    try reflexivity; try discriminate; try (intros H'; discriminate).
  now contradiction H.
Qed.

Lemma contains_empty (hay : string) : contains hay "" = true.
Proof. destruct hay; reflexivity. Qed.

Lemma length_lower (s : string) : String.length (lower s) = String.length s.
Proof. induction s; simpl; congruence. Qed.

Lemma lower_empty (s : string) : lower s = "" <-> s = "".
Proof. destruct s; simpl; split; intros H; try reflexivity; discriminate. Qed.

Lemma length_app (a b : string) :
  String.length (a ++ b) = String.length a + String.length b.
Proof. induction a; simpl; congruence. Qed.

Lemma substring_length (a b : string) :
  is_substring a b -> String.length a <= String.length b.
Proof.
  intros [pre [post ->]]. rewrite !length_app. lia.
Qed.

Lemma truthy_str (s : string) : Py.truthy (PStr s) = false <-> s = "".
Proof.
  destruct s; simpl; split; intros H; try reflexivity; discriminate.
Qed.

End PyStrFacts.

(* ------------------------------------------------------------------ *)
(** ** The relevance scorer: properties *)
(* ------------------------------------------------------------------ *)

Section Scorer.
Import PyStr PyStrFacts.

Lemma list_sum_ones {A : Type} (l : list A) :
  list_sum (map (fun _ => 1) l) = List.length l.
Proof. induction l; simpl; congruence. Qed.

(** The scorer on two non-empty strings, past its first test. *)
Lemma score_nonempty (q t : string) :
  q <> "" -> t <> "" ->
  calculate_relevance_score (PStr q) (PStr t) =
  if contains (lower t) (lower q) then Ok (19 # 20)%Q
  else match long_words q with
       | [] => Ok (1 # 2)%Q
       | _ :: _ =>
           Ok ((1 # 2)
               + fraction (List.length (words_in t (long_words q)))
                   (List.length (long_words q)) * (2 # 5))%Q
       end.
Proof.
  intros Hq Ht. unfold calculate_relevance_score.
  destruct (Py.truthy (PStr q)) eqn:Eq;
    [|apply truthy_str in Eq; contradiction].
  destruct (Py.truthy (PStr t)) eqn:Et;
    [|apply truthy_str in Et; contradiction].
  simpl. destruct (contains (lower t) (lower q)); [reflexivity|].
  fold (long_words q). destruct (long_words q) as [|w W] eqn:EW;
    [reflexivity|].
  rewrite list_sum_ones. reflexivity.
Qed.

Lemma score_empty (q t : string) :
  q = "" \/ t = "" ->
  calculate_relevance_score (PStr q) (PStr t) = Ok (1 # 2)%Q.
Proof.
  intros [-> | ->]; unfold calculate_relevance_score; simpl;
    [reflexivity | now rewrite orb_true_r].
Qed.

Lemma fraction_unit (n d : nat) :
  n <= d -> 0 < d -> (0 <= fraction n d)%Q /\ (fraction n d <= 1)%Q.
Proof.
  intros Hnd Hd. unfold fraction.
  assert (Hpos : (0 < inject_Z (Z.of_nat d))%Q).
  { change 0%Q with (inject_Z 0). rewrite <- Zlt_Qlt. lia. }
  split.
  - apply Qle_shift_div_l; [exact Hpos|].
    rewrite Qmult_0_l. change 0%Q with (inject_Z 0).
    rewrite <- Zle_Qle. lia.
  - apply Qle_shift_div_r; [exact Hpos|].
    rewrite Qmult_1_l. rewrite <- Zle_Qle. lia.
Qed.

Lemma words_in_length (t : string) (words : list string) :
  List.length (words_in t words) <= List.length words.
Proof. apply filter_length_le. Qed.

(** Every value the scorer returns on two strings is 1/2, 19/20 or
    between 1/2 and 9/10. *)
Lemma score_range (q t : string) :
  returns_within (calculate_relevance_score (PStr q) (PStr t))
    (1 # 2) (19 # 20).
Proof.
  unfold returns_within.
  destruct (string_dec q "") as [Hq|Hq];
    [rewrite score_empty by (now left); eexists; split;
       [reflexivity | split; lra]|].
  destruct (string_dec t "") as [Ht|Ht];
    [rewrite score_empty by (now right); eexists; split;
       [reflexivity | split; lra]|].
  rewrite score_nonempty by assumption.
  destruct (contains (lower t) (lower q));
    [eexists; split; [reflexivity | split; lra]|].
  destruct (long_words q) as [|w W] eqn:EW;
    [eexists; split; [reflexivity | split; lra]|].
  eexists; split; [reflexivity|].
  destruct (fraction_unit (List.length (words_in t (w :: W)))
              (List.length (w :: W)))
    as [H0 H1]; [apply words_in_length | simpl; lia |].
  split; lra.
Qed.
End Scorer.

(* ------------------------------------------------------------------ *)
(** ** [list.sort]: properties *)
(* ------------------------------------------------------------------ *)

Section SortedLists.
Context {A : Type}.

Lemma sorted_app (R : A -> A -> Prop) (l1 l2 : list A) :
  StronglySorted R (l1 ++ l2) <->
  StronglySorted R l1 /\ StronglySorted R l2
  /\ (forall a b, In a l1 -> In b l2 -> R a b).
Proof.
  induction l1 as [|x l1 IH]; simpl.
  - split; [intros H; repeat split; [constructor | exact H | tauto] | tauto].
  - split.
    + intros H. inversion H as [|? ? Hs Hx]; subst.
      apply IH in Hs. destruct Hs as [H1 [H2 H12]].
      rewrite Forall_app in Hx. destruct Hx as [Hx1 Hx2].
      repeat split; [now constructor | exact H2 |].
      intros a b [<- | Ha] Hb; [|now apply H12].
      rewrite Forall_forall in Hx2. now apply Hx2.
    + intros [H1 [H2 H12]]. inversion H1 as [|? ? Hs Hx]; subst.
      constructor.
      * apply IH. repeat split; [exact Hs | exact H2 |].
        intros a b Ha Hb. apply H12; [now right | exact Hb].
      * rewrite Forall_app. split; [exact Hx|].
        rewrite Forall_forall. intros b Hb. apply H12; [now left | exact Hb].
Qed.

Lemma sorted_firstn (R : A -> A -> Prop) (n : nat) (l : list A) :
  StronglySorted R l -> StronglySorted R (firstn n l).
Proof.
  intros H. rewrite <- (firstn_skipn n l) in H.
  now apply sorted_app in H.
Qed.

End SortedLists.

Section SortFacts.
Context {A : Type} (key : A -> Q).

Lemma insert_asc_perm (x : A) (l : list A) :
  Permutation (insert_asc key x l) (x :: l).
Proof.
  induction l as [|y l IH]; simpl; [reflexivity|].
  destruct (Qle_bool (key x) (key y)); [reflexivity|].
  rewrite IH. apply perm_swap.
Qed.

Lemma sort_asc_perm (l : list A) : Permutation (sort_asc key l) l.
Proof.
  induction l as [|x l IH]; simpl; [reflexivity|].
  rewrite insert_asc_perm. now apply perm_skip.
Qed.

Lemma insert_asc_sorted (x : A) (l : list A) :
  StronglySorted (ascending key) l -> StronglySorted (ascending key) (insert_asc key x l).
Proof.
  induction 1 as [|y l Hs IH Hy]; simpl.
  - repeat constructor.
  - destruct (Qle_bool (key x) (key y)) eqn:E.
    + apply Qle_bool_iff in E.
      constructor; [now constructor|].
      constructor; [exact E|].
      eapply Forall_impl; [|exact Hy].
      intros z Hz. unfold ascending in *. now apply Qle_trans with (key y).
    + constructor; [exact IH|].
      eapply Permutation_Forall; [symmetry; apply insert_asc_perm|].
      constructor; [|exact Hy].
      unfold ascending. apply Qlt_le_weak, Qnot_le_lt.
      intros H. apply Qle_bool_iff in H. congruence.
Qed.

Lemma sort_asc_sorted (l : list A) : StronglySorted (ascending key) (sort_asc key l).
Proof.
  induction l as [|x l IH]; simpl; [constructor | now apply insert_asc_sorted].
Qed.

Lemma sorted_rev (l : list A) :
  StronglySorted (ascending key) l -> StronglySorted (descending key) (rev l).
Proof.
  induction 1 as [|x l Hs IH Hx]; simpl; [constructor|].
  apply sorted_app. repeat split; [exact IH | repeat constructor |].
  intros a b Ha [<- | []]. apply in_rev in Ha.
  rewrite Forall_forall in Hx. exact (Hx a Ha).
Qed.

Lemma with_key_insert (k : Q) (x : A) (l : list A) :
  with_key key k (insert_asc key x l) = with_key key k (x :: l).
Proof.
  unfold with_key. induction l as [|y l IH]; simpl; [reflexivity|].
  destruct (Qle_bool (key x) (key y)) eqn:E; [reflexivity|].
  simpl. rewrite IH. simpl.
  destruct (Qeq_bool (key x) k) eqn:Ex, (Qeq_bool (key y) k) eqn:Ey;
    try reflexivity.
  apply Qeq_bool_iff in Ex, Ey.
  assert (H : Qle_bool (key x) (key y) = true);
    [apply Qle_bool_iff; rewrite Ex, Ey; apply Qle_refl | congruence].
Qed.

Lemma with_key_sort_asc (k : Q) (l : list A) :
  with_key key k (sort_asc key l) = with_key key k l.
Proof.
  induction l as [|x l IH]; simpl; [reflexivity|].
  rewrite with_key_insert. unfold with_key in *. simpl. now rewrite IH.
Qed.

Lemma with_key_rev (k : Q) (l : list A) :
  with_key key k (rev l) = rev (with_key key k l).
Proof.
  unfold with_key. induction l as [|x l IH]; simpl; [reflexivity|].
  rewrite filter_app, IH. simpl.
  destruct (Qeq_bool (key x) k); simpl; [reflexivity | apply app_nil_r].
Qed.

(** [l.sort(key=key, reverse=True)] is a stable descending sort. *)
Lemma py_sort_reverse_perm (l : list A) : Permutation (py_sort key true l) l.
Proof.
  unfold py_sort. rewrite <- Permutation_rev, sort_asc_perm.
  symmetry. apply Permutation_rev.
Qed.

Lemma py_sort_reverse_sorted (l : list A) :
  StronglySorted (descending key) (py_sort key true l).
Proof. apply sorted_rev, sort_asc_sorted. Qed.

Lemma py_sort_reverse_stable (k : Q) (l : list A) :
  with_key key k (py_sort key true l) = with_key key k l.
Proof.
  unfold py_sort.
  now rewrite with_key_rev, with_key_sort_asc, with_key_rev, rev_involutive.
Qed.

Lemma with_key_In (x : A) (l : list A) :
  In x l -> In x (with_key key (key x) l).
Proof.
  intros H. apply filter_In. split; [exact H|].
  apply Qeq_bool_iff. reflexivity.
Qed.

Lemma with_key_cons (k : Q) (x : A) (l : list A) :
  with_key key k (x :: l)
  = if Qeq_bool (key x) k then x :: with_key key k l else with_key key k l.
Proof. reflexivity. Qed.

(** The head of a descending list has the greatest key. *)
Lemma descending_head (x y : A) (l : list A) :
  StronglySorted (descending key) (x :: l) -> In y (x :: l) ->
  (key y <= key x)%Q.
Proof.
  intros Hs [<- | Hy]; [apply Qle_refl|].
  inversion Hs as [|? ? _ Hx]; subst.
  rewrite Forall_forall in Hx. exact (Hx y Hy).
Qed.

(** Two descending lists that hold, for every key, the same elements in the
    same order are the same list: a stable sort has one possible outcome. *)
Lemma stable_sorted_unique (l1 l2 : list A) :
  StronglySorted (descending key) l1 ->
  StronglySorted (descending key) l2 ->
  (forall k, with_key key k l1 = with_key key k l2) ->
  l1 = l2.
Proof.
  revert l2. induction l1 as [|x l1 IH]; intros l2 H1 H2 Hkeys.
  - destruct l2 as [|y l2]; [reflexivity|].
    pose proof (with_key_In y (y :: l2) (or_introl eq_refl)) as Hy.
    rewrite <- Hkeys in Hy. destruct Hy.
  - destruct l2 as [|y l2].
    + pose proof (with_key_In x (x :: l1) (or_introl eq_refl)) as Hx.
      rewrite Hkeys in Hx. destruct Hx.
    + assert (Hxy : (key x <= key y)%Q).
      { apply descending_head with l2; [exact H2|].
        pose proof (with_key_In x (x :: l1) (or_introl eq_refl)) as Hx.
        rewrite Hkeys in Hx. apply filter_In in Hx. tauto. }
      assert (Hyx : (key y <= key x)%Q).
      { apply descending_head with l1; [exact H1|].
        pose proof (with_key_In y (y :: l2) (or_introl eq_refl)) as Hy.
        rewrite <- Hkeys in Hy. apply filter_In in Hy. tauto. }
      assert (Heq : (key y == key x)%Q) by now apply Qle_antisym.
      assert (Hhead : x = y).
      { pose proof (Hkeys (key x)) as Hk. rewrite !with_key_cons in Hk.
        apply Qeq_bool_iff in Heq. rewrite Heq in Hk.
        assert (Hx : Qeq_bool (key x) (key x) = true)
          by (apply Qeq_bool_iff; reflexivity).
        rewrite Hx in Hk. now inversion Hk. }
      subst y. f_equal. apply IH.
      * now inversion H1.
      * now inversion H2.
      * intros k. pose proof (Hkeys k) as Hk. rewrite !with_key_cons in Hk.
        destruct (Qeq_bool (key x) k); [now inversion Hk | exact Hk].
Qed.

(** So [py_sort] is the result of any stable descending sort of [l],
    whatever the algorithm. *)
Lemma py_sort_reverse_unique (l sorted : list A) :
  StronglySorted (descending key) sorted ->
  (forall k, with_key key k sorted = with_key key k l) ->
  sorted = py_sort key true l.
Proof.
  intros Hs Hk. apply stable_sorted_unique.
  - exact Hs.
  - apply py_sort_reverse_sorted.
  - intros k. now rewrite py_sort_reverse_stable.
Qed.

Lemma with_key_firstn (k : Q) (n : nat) (l : list A) :
  starts (with_key key k (firstn n l)) (with_key key k l).
Proof.
  exists (with_key key k (skipn n l)). unfold with_key.
  now rewrite <- filter_app, firstn_skipn.
Qed.
End SortFacts.

(* ------------------------------------------------------------------ *)
(** ** The loops and the [try] blocks: properties *)
(* ------------------------------------------------------------------ *)

Section Loops.
Context {A : Type} (mk : A -> res SearchResult).

(** The loop appends the records of the items before the first failure
    and stops with that failure. *)
Lemma for_append_spec (items : list A) (results : list SearchResult) :
  Block.for_append mk items results
  = ((results ++ records_until_error mk items)%list, first_error mk items).
Proof.
  revert results. induction items as [|x items IH]; intros results; simpl.
  - unfold Block.ret. now rewrite app_nil_r.
  - unfold Block.seq, Block.lift, Block.append.
    destruct (mk x) as [r|e].
    + now rewrite IH, <- app_assoc.
    + now rewrite app_nil_r.
Qed.

Lemma records_until_error_length (items : list A) :
  List.length (records_until_error mk items) <= List.length items.
Proof.
  induction items as [|x items IH]; simpl; [lia|].
  destruct (mk x); simpl; lia.
Qed.

Lemma records_until_error_all (items : list A) :
  Forall (maps_ok mk) items ->
  Forall2 (fun x r => mk x = Ok r) items (records_until_error mk items)
  /\ first_error mk items = Ok tt.
Proof.
  induction 1 as [|x items [r Hr] _ [IH1 IH2]]; simpl.
  - split; [constructor | reflexivity].
  - rewrite Hr. split; [now constructor | exact IH2].
Qed.

Lemma records_until_error_all_length (items : list A) :
  Forall (maps_ok mk) items ->
  List.length (records_until_error mk items) = List.length items.
Proof.
  intros H. apply records_until_error_all in H. destruct H as [H _].
  symmetry. eapply Forall2_length, H.
Qed.

(** Every record of the loop comes from an item of an initial segment. *)
Lemma records_until_error_prefix (items : list A) :
  exists mapped,
    starts mapped items
    /\ Forall2 (fun x r => mk x = Ok r) mapped (records_until_error mk items).
Proof.
  induction items as [|x items [mapped [[rest Hrest] IH]]]; simpl.
  - exists []. split; [now exists [] | constructor].
  - destruct (mk x) as [r|e] eqn:E.
    + exists (x :: mapped). split; [exists rest; simpl; congruence|].
      now constructor.
    + exists []. split; [now exists (x :: items) | constructor].
Qed.

(** A property every mapped record has holds of all records of the loop. *)
Lemma records_until_error_Forall (Q : SearchResult -> Prop)
    (items : list A) :
  (forall x r, mk x = Ok r -> Q r) ->
  Forall Q (records_until_error mk items).
Proof.
  intros HQ. induction items as [|x items IH]; simpl; [constructor|].
  destruct (mk x) as [r|e] eqn:E; [|constructor].
  constructor; [now apply (HQ x) | exact IH].
Qed.
End Loops.

(** Peels the binds in front of a record that was built without error. *)
Ltac peel_binds H :=
  repeat match type of H with
         | bind ?e _ = Ok _ =>
             let E := fresh "E" in
             destruct e eqn:E; simpl in H; [|discriminate H]
         end.

Section Records.
Variable P : text_prims.

Lemma coingecko_result_scored (query coin : pyval) (r : SearchResult) :
  coingecko_result P query coin = Ok r -> scored_by query coin_name coin r.
Proof.
  unfold coingecko_result, scored_by, coin_name. intros H.
  peel_binds H. inversion H; subst; clear H. simpl.
  eexists. split; [eassumption | assumption].
Qed.

Lemma cryptopanic_result_scored (query post : pyval) (r : SearchResult) :
  cryptopanic_result P query post = Ok r ->
  scored_by query item_title post r /\ item_title post = Ok (title r).
Proof.
  unfold cryptopanic_result, scored_by, item_title. intros H.
  peel_binds H. inversion H; subst; clear H. simpl.
  split; [eexists; split; [reflexivity | assumption] | reflexivity].
Qed.

Lemma newsapi_result_scored (query article : pyval) (r : SearchResult) :
  newsapi_result P query article = Ok r ->
  scored_by query item_title article r /\ item_title article = Ok (title r).
Proof.
  unfold newsapi_result, scored_by, item_title. intros H.
  peel_binds H. inversion H; subst; clear H. simpl.
  split; [eexists; split; [reflexivity | assumption] | reflexivity].
Qed.

Lemma price_result_score (entry : string * pyval) (r : SearchResult) :
  price_result P entry = Ok r -> score r = (9 # 10)%Q.
Proof.
  unfold price_result. destruct entry as [coin_id price_data]. intros H.
  peel_binds H. now inversion H.
Qed.
End Records.

(* ------------------------------------------------------------------ *)
(** ** The source fetchers: properties *)
(* ------------------------------------------------------------------ *)

(** Opens a fetcher down to its outbound call. *)
Ltac open_try :=
  unfold Block.try_except, Block.seq, Block.lift, Block.ret; simpl.

(** Runs a [try] body along a failed outbound call. *)
Ltac run_failed H :=
  destruct H as [e Hnet | resp Hnet Hstatus | resp e Hnet Hstatus Hjson
                 | resp data e Hnet Hstatus Hjson Hitems];
  open_try; rewrite Hnet;
  [ reflexivity
  | apply Z.eqb_neq in Hstatus; rewrite Hstatus; reflexivity
  | apply Z.eqb_eq in Hstatus; rewrite Hstatus, Hjson; reflexivity
  | apply Z.eqb_eq in Hstatus; rewrite Hstatus, Hjson, Hitems; reflexivity ].

(** Runs a [try] body along an outbound call that gives [items]. *)
Ltac run_succeeded H :=
  destruct H as [resp [data [Hnet [Hstatus [Hjson Hitems]]]]];
  open_try; apply Z.eqb_eq in Hstatus;
  rewrite Hnet, Hstatus, Hjson, Hitems, for_append_spec;
  destruct (first_error _ _); reflexivity.

Section FetcherFacts.
Variable P : text_prims.
Variable cfg : config.
Variable net : network.

(** *** CoinGecko trending *)

Lemma coingecko_total (query : pyval) :
  exists rs, fetch_from_coingecko P net query = Ok rs.
Proof.
  unfold fetch_from_coingecko.
  destruct (Block.try_except (coingecko_try P net query) []) as [rs r].
  now exists rs.
Qed.

Lemma coingecko_failed (query : pyval) :
  fetch_failed net coingecko_url coingecko_coins ->
  fetch_from_coingecko P net query = Ok [].
Proof.
  intros H. unfold fetch_from_coingecko, coingecko_try. run_failed H.
Qed.

Lemma coingecko_succeeded (query : pyval) (coins : list pyval) :
  fetch_succeeded net coingecko_url coingecko_coins coins ->
  fetch_from_coingecko P net query
  = Ok (records_until_error (coingecko_result P query) coins).
Proof.
  intros H. unfold fetch_from_coingecko, coingecko_try. run_succeeded H.
Qed.

(** *** CryptoPanic *)

Lemma cryptopanic_total (query : pyval) :
  exists rs, fetch_from_cryptopanic P cfg net query = Ok rs.
Proof.
  unfold fetch_from_cryptopanic.
  destruct (Block.try_except (cryptopanic_try P cfg net query) []) as [rs r].
  now exists rs.
Qed.

Lemma cryptopanic_failed (q : string) :
  fetch_failed net (cryptopanic_url cfg (PyStr.lower q)) cryptopanic_posts ->
  fetch_from_cryptopanic P cfg net (PStr q) = Ok [].
Proof.
  intros H. unfold fetch_from_cryptopanic, cryptopanic_try. run_failed H.
Qed.

Lemma cryptopanic_succeeded (q : string) (posts : list pyval) :
  fetch_succeeded net (cryptopanic_url cfg (PyStr.lower q))
    cryptopanic_posts posts ->
  fetch_from_cryptopanic P cfg net (PStr q)
  = Ok (records_until_error (cryptopanic_result P (PStr q)) posts).
Proof.
  intros H. unfold fetch_from_cryptopanic, cryptopanic_try. run_succeeded H.
Qed.

(** *** CoinGecko prices *)

Lemma prices_total (q : string) :
  exists rs, fetch_crypto_prices P net (PStr q) = Ok rs.
Proof.
  unfold fetch_crypto_prices. simpl.
  destruct (Block.try_except _ []) as [rs r]. now exists rs.
Qed.

(** A query that is not a string escapes the price fetcher: its
    [query.lower()] stands before the [try]. *)
Lemma prices_raises_on_non_string :
  fetch_crypto_prices P net (PInt 7) = Raise AttributeError.
Proof. reflexivity. Qed.

Lemma prices_failed (q : string) :
  fetch_failed net (prices_url (select_coin_ids (PyStr.lower q))) Py.items ->
  fetch_crypto_prices P net (PStr q) = Ok [].
Proof.
  intros H. unfold fetch_crypto_prices, prices_try.
  unfold bind, Py.lower. run_failed H.
Qed.

Lemma prices_succeeded (q : string) (entries : list (string * pyval)) :
  fetch_succeeded net (prices_url (select_coin_ids (PyStr.lower q)))
    Py.items entries ->
  fetch_crypto_prices P net (PStr q)
  = Ok (records_until_error (price_result P) entries).
Proof.
  intros H. unfold fetch_crypto_prices, prices_try.
  unfold bind, Py.lower. run_succeeded H.
Qed.

(** *** NewsAPI *)

Lemma newsapi_total (query : pyval) :
  exists rs, fetch_from_newsapi P cfg net query = Ok rs.
Proof.
  unfold fetch_from_newsapi.
  destruct (Block.try_except (newsapi_try P cfg net query) []) as [rs r].
  now exists rs.
Qed.

Lemma newsapi_failed (query : pyval) :
  fetch_failed net (newsapi_url cfg) newsapi_articles ->
  fetch_from_newsapi P cfg net query = Ok [].
Proof.
  intros H. unfold fetch_from_newsapi, newsapi_try. run_failed H.
Qed.

Lemma newsapi_succeeded (query : pyval) (articles : list pyval) :
  fetch_succeeded net (newsapi_url cfg) newsapi_articles articles ->
  fetch_from_newsapi P cfg net query
  = Ok (records_until_error (newsapi_result P query) articles).
Proof.
  intros H. unfold fetch_from_newsapi, newsapi_try. run_succeeded H.
Qed.

(** *** The lists the loops run over *)

Lemma listed_items (key : string) (n : nat) (data : pyval) (l : list pyval) :
  Py.get data key (PList []) = Ok (PList l) ->
  (found <- Py.get data key (PList []) ;;
   head <- Py.slice_to found n ;;
   Py.iter head)%py = Ok (firstn n l).
Proof. intros H. now rewrite H. Qed.
End FetcherFacts.

(* ------------------------------------------------------------------ *)
(** ** Words of a string *)
(* ------------------------------------------------------------------ *)

Section Words.
Import PyStr PyStrFacts.

Lemma app_assoc_str (a b c : string) : (a ++ b) ++ c = a ++ b ++ c.
Proof. induction a; simpl; congruence. Qed.

Lemma app_empty_r (a : string) : a ++ "" = a.
Proof. induction a; simpl; congruence. Qed.

Lemma substring_refl (a : string) : is_substring a a.
Proof. exists "", "". simpl. now rewrite app_empty_r. Qed.

Lemma substring_trans (a b c : string) :
  is_substring a b -> is_substring b c -> is_substring a c.
Proof.
  intros [p1 [s1 ->]] [p2 [s2 ->]]. exists (p2 ++ p1), (s1 ++ s2).
  now rewrite !app_assoc_str.
Qed.

(** Every word [split] returns is a block of the string it was cut from. *)
Lemma split_from_substring (cur s w : string) :
  In w (split_from cur s) -> is_substring w (cur ++ s).
Proof.
  revert cur. induction s as [|c s IH]; intros cur; simpl.
  - destruct cur; simpl; [tauto|]. intros [<- | []].
    rewrite app_empty_r. apply substring_refl.
  - destruct (is_space c).
    + assert (Htail : In w (split_from "" s) -> is_substring w (cur ++ String c s)).
      { intros H. apply (IH "") in H. simpl in H.
        apply substring_trans with s; [exact H|].
        exists (cur ++ String c ""), "".
        rewrite app_empty_r, app_assoc_str. reflexivity. }
      destruct cur as [|d cur]; [exact Htail|].
      intros [<- | H]; [|now apply Htail].
      exists "", (String c s). reflexivity.
    + intros H. apply IH in H. now rewrite app_assoc_str in H.
Qed.

Lemma split_substring (s w : string) : In w (split s) -> is_substring w s.
Proof. apply (split_from_substring "" s w). Qed.

Lemma long_words_in_split (q w : string) :
  In w (long_words q) -> In w (split (lower q)).
Proof. unfold long_words. rewrite filter_In. tauto. Qed.
End Words.

(* ------------------------------------------------------------------ *)
(** ** The relevance scorer: the specified behaviour *)
(* ------------------------------------------------------------------ *)

Section ScorerSpec.
Import PyStr PyStrFacts.

(** C1.  On a query string and a text string the scorer returns 0.5 when
    either is empty; otherwise 0.95 when the lowercased query occurs in the
    lowercased text; otherwise, with W the words of the lowercased query
    longer than 3 characters, 0.5 when W is empty and
    0.5 + 0.4 * (number of words of W occurring in the lowercased text / |W|)
    when it is not.  The tests are made in that order: each case assumes
    that the earlier ones did not apply. *)
Theorem relevance_score_cases (q t : string) :
  let r := calculate_relevance_score (PStr q) (PStr t) in
  let W := long_words q in
  (q = "" \/ t = "" -> r = Ok (1 # 2)%Q)
  /\ (q <> "" -> t <> "" -> is_substring (lower q) (lower t) ->
      r = Ok (19 # 20)%Q)
  /\ (q <> "" -> t <> "" -> ~ is_substring (lower q) (lower t) ->
      W = [] -> r = Ok (1 # 2)%Q)
  /\ (q <> "" -> t <> "" -> ~ is_substring (lower q) (lower t) ->
      W <> [] ->
      returns r ((1 # 2) + (2 # 5)
                 * fraction (List.length (words_in t W)) (List.length W))%Q).
Proof.
  cbv zeta. repeat split.
  - apply score_empty.
  - intros Hq Ht Hin. rewrite score_nonempty by assumption.
    apply contains_spec in Hin. now rewrite Hin.
  - intros Hq Ht Hin HW. rewrite score_nonempty by assumption.
    apply contains_false in Hin. now rewrite Hin, HW.
  - intros Hq Ht Hin HW. rewrite score_nonempty by assumption.
    apply contains_false in Hin. rewrite Hin.
    destruct (long_words q) as [|w W]; [contradiction|].
    eexists. split; [reflexivity|]. apply Qplus_comp; [reflexivity|].
    apply Qmult_comm.
Qed.

Lemma relevance_score_cases_witness :
  calculate_relevance_score (PStr "") (PStr "Bitcoin") = Ok (1 # 2)%Q
  /\ calculate_relevance_score (PStr "bitcoin") (PStr "Bitcoin rallies today")
     = Ok (19 # 20)%Q
  /\ calculate_relevance_score (PStr "btc") (PStr "Bitcoin rallies today")
     = Ok (1 # 2)%Q
  /\ returns
       (calculate_relevance_score (PStr "solana price crash today")
          (PStr "Price of Solana unchanged"))
       ((1 # 2) + (2 # 5) * fraction 2 4)%Q.
Proof.
  split; [|split; [|split]].
  - destruct (relevance_score_cases "" "Bitcoin") as [H _].
    apply H. now left.
  - destruct (relevance_score_cases "bitcoin" "Bitcoin rallies today")
      as [_ [H _]].
    apply H; [discriminate | discriminate | apply contains_spec; reflexivity].
  - destruct (relevance_score_cases "btc" "Bitcoin rallies today")
      as [_ [_ [H _]]].
    apply H; [discriminate | discriminate | apply contains_false; reflexivity
             | reflexivity].
  - destruct (relevance_score_cases "solana price crash today"
                "Price of Solana unchanged") as [_ [_ [_ H]]].
    apply H; [discriminate | discriminate | apply contains_false; reflexivity
             | discriminate].
Defined.

(** C5, as stated, fails on the empty query: it occurs in every text, and
    the scorer answers 0.5 before it looks for it. *)
Lemma empty_query_occurs_but_scores_half :
  is_substring (lower "") (lower "Bitcoin rallies today")
  /\ calculate_relevance_score (PStr "") (PStr "Bitcoin rallies today")
     = Ok (1 # 2)%Q
  /\ ~ returns
         (calculate_relevance_score (PStr "") (PStr "Bitcoin rallies today"))
         (19 # 20).
Proof.
  split; [apply contains_spec; reflexivity|].
  split; [reflexivity|].
  intros [s [H Hs]]. inversion H; subst. discriminate Hs.
Qed.

(** C5, amended.  For every non-empty query string and every text string
    such that the lowercased query occurs in the lowercased text, the
    scorer returns exactly 0.95; so it does on "bitcoin" against
    "Bitcoin rallies today". *)
Theorem substring_match_scores_095 :
  (forall q t : string,
      q <> "" -> is_substring (lower q) (lower t) ->
      calculate_relevance_score (PStr q) (PStr t) = Ok (19 # 20)%Q)
  /\ calculate_relevance_score (PStr "bitcoin") (PStr "Bitcoin rallies today")
     = Ok (19 # 20)%Q.
Proof.
  split; [|reflexivity].
  intros q t Hq Hin.
  assert (Ht : t <> "").
  { intros ->. apply substring_length in Hin. rewrite length_lower in Hin.
    destruct q; [now apply Hq | simpl in Hin; lia]. }
  rewrite score_nonempty by assumption.
  apply contains_spec in Hin. now rewrite Hin.
Qed.

Lemma substring_match_scores_095_witness :
  calculate_relevance_score (PStr "ETH") (PStr "Ethereum upgrade ships")
  = Ok (19 # 20)%Q.
Proof.
  apply (proj1 substring_match_scores_095 "ETH" "Ethereum upgrade ships");
    [discriminate | apply contains_spec; reflexivity].
Defined.

(** C6.  For every query string and every text string the scorer returns a
    value of the closed interval [0, 1]. *)
Theorem relevance_score_in_unit_interval (q t : string) :
  returns_within (calculate_relevance_score (PStr q) (PStr t)) 0 1.
Proof.
  destruct (score_range q t) as [s [Hs [Hlo Hhi]]].
  exists s. split; [exact Hs | split; lra].
Qed.

(** C9.  For every non-empty query string and every non-empty text string
    the scorer returns a value of [0.5, 0.95]; the lower end is what a text
    scores in which none of the words of the query occurs. *)
Theorem relevance_score_between_half_and_095 (q t : string) :
  q <> "" -> t <> "" ->
  let r := calculate_relevance_score (PStr q) (PStr t) in
  returns_within r (1 # 2) (19 # 20)
  /\ (split (lower q) <> [] ->
      (forall w, In w (split (lower q)) -> ~ is_substring w (lower t)) ->
      returns r (1 # 2)).
Proof.
  intros Hq Ht. cbv zeta. split; [apply score_range|].
  intros Hwords Hnone. rewrite score_nonempty by assumption.
  assert (Hout : contains (lower t) (lower q) = false).
  { apply contains_false. intros Hin.
    destruct (split (lower q)) as [|w ws] eqn:E; [contradiction|].
    apply (Hnone w); [now left|].
    apply substring_trans with (lower q); [|exact Hin].
    apply split_substring. rewrite E. now left. }
  rewrite Hout.
  destruct (long_words q) as [|w W] eqn:EW;
    [eexists; split; reflexivity|].
  assert (Hzero : words_in t (w :: W) = []).
  { unfold words_in. rewrite <- EW. clear EW.
    assert (Hall : forall x, In x (long_words q) ->
                             contains (lower t) x = false).
    { intros x Hx. apply contains_false, Hnone, long_words_in_split, Hx. }
    induction (long_words q) as [|x l IH]; simpl; [reflexivity|].
    rewrite (Hall x) by now left.
    apply IH. intros y Hy. apply Hall. now right. }
  rewrite Hzero. eexists. split; [reflexivity|].
  unfold fraction. simpl List.length. simpl Z.of_nat.
  unfold Qdiv. rewrite Qmult_0_l, Qmult_0_l. apply Qplus_0_r.
Qed.

Lemma relevance_score_between_half_and_095_witness :
  returns_within
    (calculate_relevance_score (PStr "dogecoin news") (PStr "Bitcoin rallies"))
    (1 # 2) (19 # 20)
  /\ returns
       (calculate_relevance_score (PStr "dogecoin news")
          (PStr "Bitcoin rallies"))
       (1 # 2).
Proof.
  assert (H := relevance_score_between_half_and_095
                 "dogecoin news" "Bitcoin rallies").
  cbv zeta in H. destruct H as [H1 H2]; [discriminate | discriminate |].
  split; [exact H1|]. apply H2; [discriminate|].
  intros w [<- | [<- | []]]; apply contains_false; reflexivity.
Defined.
End ScorerSpec.

(* ------------------------------------------------------------------ *)
(** ** The price fetcher: which coins it asks for *)
(* ------------------------------------------------------------------ *)

Section CoinIds.
Import PyStr PyStrFacts.

Lemma collect_coin_ids_filter (entries : list (string * string))
    (query_lower : string) (coin_ids : list string) :
  collect_coin_ids entries query_lower coin_ids
  = (coin_ids
     ++ map snd (filter (fun e => contains query_lower (fst e)) entries))%list.
Proof.
  revert coin_ids. induction entries as [|[keyword coin_id] entries IH];
    intros coin_ids; simpl.
  - now rewrite app_nil_r.
  - rewrite IH. destruct (contains query_lower keyword); simpl;
      [now rewrite <- app_assoc | reflexivity].
Qed.

Lemma filter_none {A : Type} (f : A -> bool) (l : list A) :
  (forall x, In x l -> f x = false) -> filter f l = [].
Proof.
  induction l as [|x l IH]; simpl; intros H; [reflexivity|].
  rewrite (H x) by now left. apply IH. intros y Hy. apply H. now right.
Qed.

Lemma filter_some {A : Type} (f : A -> bool) (l : list A) (x : A) :
  In x l -> f x = true -> filter f l <> [].
Proof.
  intros Hin Hf Hnil. assert (H : In x (filter f l));
    [apply filter_In; now split | rewrite Hnil in H; exact H].
Qed.

(** The price fetcher reads the network at one URL only, the one built
    from the selected ids. *)
Lemma prices_request (P : text_prims) (net net' : network) (q : string) :
  net (prices_url (select_coin_ids (lower q)))
  = net' (prices_url (select_coin_ids (lower q))) ->
  fetch_crypto_prices P net (PStr q) = fetch_crypto_prices P net' (PStr q).
Proof.
  intros H. unfold fetch_crypto_prices, prices_try, bind, Py.lower.
  open_try. now rewrite H.
Qed.

(** C10.  In the price fetcher, for every query string: when the
    lowercased query contains none of the ten keywords of the coin table,
    the ids asked for are bitcoin, ethereum, solana; otherwise they are the
    ids of all the keywords it contains, in the order of the table and with
    repetitions, as for "bitcoin btc", which asks for bitcoin twice.  The
    request of the fetcher is the one for those ids. *)
Theorem coin_ids_selection (q : string) :
  let query_lower := lower q in
  let found e := contains query_lower (fst e) in
  List.length coin_map = 10
  /\ ((forall e, In e coin_map -> ~ is_substring (fst e) query_lower) ->
      select_coin_ids query_lower = ["bitcoin"; "ethereum"; "solana"])
  /\ ((exists e, In e coin_map /\ is_substring (fst e) query_lower) ->
      select_coin_ids query_lower = map snd (filter found coin_map))
  /\ select_coin_ids (lower "bitcoin btc") = ["bitcoin"; "bitcoin"]
  /\ (forall (P : text_prims) (net net' : network),
         net (prices_url (select_coin_ids query_lower))
         = net' (prices_url (select_coin_ids query_lower)) ->
         fetch_crypto_prices P net (PStr q)
         = fetch_crypto_prices P net' (PStr q)).
Proof.
  cbv zeta. split; [reflexivity|].
  split; [|split; [|split]].
  - intros Hnone. unfold select_coin_ids.
    rewrite collect_coin_ids_filter, app_nil_l.
    rewrite filter_none; [reflexivity|].
    intros e He. apply contains_false. now apply Hnone.
  - intros [e [He Hin]]. apply contains_spec in Hin.
    unfold select_coin_ids. rewrite collect_coin_ids_filter, app_nil_l.
    pose proof (filter_some (fun e => contains (lower q) (fst e))
                  coin_map e He Hin) as Hne.
    destruct (filter _ coin_map) as [|e' l]; [contradiction | reflexivity].
  - reflexivity.
  - intros P net net'. apply prices_request.
Qed.

Lemma coin_ids_selection_witness :
  select_coin_ids (lower "Latest DeFi news") = ["bitcoin"; "ethereum"; "solana"]
  /\ select_coin_ids (lower "ETH vs XRP") = ["ethereum"; "ripple"].
Proof.
  split.
  - destruct (coin_ids_selection "Latest DeFi news") as [_ [H _]].
    apply H. intros e He. apply contains_false.
    repeat (destruct He as [<- | He]; [reflexivity|]). destruct He.
  - destruct (coin_ids_selection "ETH vs XRP") as [_ [_ [H _]]].
    apply H. exists ("eth", "ethereum"). split; [simpl; tauto|].
    apply contains_spec. reflexivity.
Defined.
End CoinIds.

(* ------------------------------------------------------------------ *)
(** ** The aggregator: properties *)
(* ------------------------------------------------------------------ *)

Section Ranking.

Lemma rank_and_limit_sorted (results : list SearchResult) :
  StronglySorted (descending score) (rank_and_limit results).
Proof.
  unfold rank_and_limit. cbv zeta. apply sorted_firstn.
  apply py_sort_reverse_sorted.
Qed.

Lemma rank_and_limit_stable (s : Q) (results : list SearchResult) :
  starts (with_key score s (rank_and_limit results))
    (with_key score s results).
Proof.
  unfold rank_and_limit.
  rewrite <- (py_sort_reverse_stable score s results).
  apply with_key_firstn.
Qed.

Lemma rank_and_limit_length (results : list SearchResult) :
  List.length (rank_and_limit results) = Nat.min 10 (List.length results).
Proof.
  unfold rank_and_limit. rewrite length_firstn.
  now rewrite (Permutation_length (py_sort_reverse_perm score results)).
Qed.

(** The ten results kept are highest-scored: what is left out scores no
    more than anything kept. *)
Lemma rank_and_limit_top (results : list SearchResult) :
  exists rest,
    Permutation results (rank_and_limit results ++ rest)
    /\ forall kept left_out,
         In kept (rank_and_limit results) -> In left_out rest ->
         (score left_out <= score kept)%Q.
Proof.
  exists (skipn 10 (py_sort score true results)). unfold rank_and_limit.
  split.
  - rewrite firstn_skipn. symmetry. apply py_sort_reverse_perm.
  - pose proof (py_sort_reverse_sorted score results) as H.
    rewrite <- (firstn_skipn 10) in H. apply sorted_app in H.
    destruct H as [_ [_ H]]. intros kept left_out Hk Hl. exact (H _ _ Hk Hl).
Qed.

Variable P : text_prims.
Variable cfg : config.
Variable net : network.

(** On a query string no fetcher raises, so the aggregator returns the
    ranked, capped concatenation of the four source outputs. *)
Lemma fetch_crypto_news_eq (q : string) (filter_param : pyval) :
  fetch_crypto_news P cfg net (PStr q) filter_param
  = Ok (rank_and_limit (concatenated P cfg net q)).
Proof.
  unfold fetch_crypto_news, concatenated, out_coingecko, out_cryptopanic,
    out_prices, out_newsapi, extend_if.
  destruct (coingecko_total P net (PStr q)) as [cg ->].
  destruct (cryptopanic_total P cfg net (PStr q)) as [cp ->].
  destruct (prices_total P net q) as [mk ->].
  destruct (newsapi_total P cfg net (PStr q)) as [nw ->].
  destruct (Py.truthy (PStr (CRYPTOPANIC_API_KEY cfg)));
    destruct (Py.truthy (PStr (NEWSAPI_KEY cfg))); simpl;
    repeat rewrite <- app_assoc; repeat rewrite app_nil_r; reflexivity.
Qed.

Lemma out_coingecko_failed (q : string) :
  fetch_failed net coingecko_url coingecko_coins ->
  out_coingecko P net q = [].
Proof.
  intros H. unfold out_coingecko. now rewrite coingecko_failed.
Qed.

Lemma out_cryptopanic_failed (q : string) :
  fetch_failed net (cryptopanic_url cfg (PyStr.lower q)) cryptopanic_posts ->
  out_cryptopanic P cfg net q = [].
Proof.
  intros H. unfold out_cryptopanic. rewrite cryptopanic_failed by exact H.
  now destruct (Py.truthy _).
Qed.

Lemma out_prices_failed (q : string) :
  fetch_failed net (prices_url (select_coin_ids (PyStr.lower q))) Py.items ->
  out_prices P net q = [].
Proof.
  intros H. unfold out_prices. now rewrite prices_failed.
Qed.

Lemma out_newsapi_failed (q : string) :
  fetch_failed net (newsapi_url cfg) newsapi_articles ->
  out_newsapi P cfg net q = [].
Proof.
  intros H. unfold out_newsapi. rewrite newsapi_failed by exact H.
  now destruct (Py.truthy _).
Qed.
End Ranking.

(* ------------------------------------------------------------------ *)
(** ** The aggregator: the specified behaviour *)
(* ------------------------------------------------------------------ *)

Section AggregatorSpec.
Variable P : text_prims.
Variable cfg : config.
Variable net : network.

(** C2.  The aggregator returns the concatenated outputs of the source
    fetchers ranked and capped, and for every list of results that
    ranking is sorted non-increasing by score and stable: the results of
    any one score appear in the order they have in the concatenated
    input, from its first on. *)
Theorem aggregator_sorted_and_stable (q : string) (filter_param : pyval) :
  fetch_crypto_news P cfg net (PStr q) filter_param
  = Ok (rank_and_limit (concatenated P cfg net q))
  /\ forall results : list SearchResult,
       StronglySorted (descending score) (rank_and_limit results)
       /\ forall s : Q,
            starts (with_key score s (rank_and_limit results))
              (with_key score s results).
Proof.
  split; [apply fetch_crypto_news_eq|].
  intros results. split; [apply rank_and_limit_sorted|].
  intros s. apply rank_and_limit_stable.
Qed.

(** C3.  Whatever the four sources return, the aggregator returns at most
    10 results; when the concatenated outputs hold at least 10 it returns
    exactly 10, and the results it returns are highest-scored: every
    result left out scores no more than any result returned. *)
Theorem aggregator_keeps_top_ten (q : string) (filter_param : pyval) :
  fetch_crypto_news P cfg net (PStr q) filter_param
  = Ok (rank_and_limit (concatenated P cfg net q))
  /\ forall coingecko cryptopanic prices newsapi : list SearchResult,
       let input := (coingecko ++ cryptopanic ++ prices ++ newsapi)%list in
       let out := rank_and_limit input in
       List.length out <= 10
       /\ (10 <= List.length input -> List.length out = 10)
       /\ exists rest,
            Permutation input (out ++ rest)
            /\ forall kept left_out,
                 In kept out -> In left_out rest ->
                 (score left_out <= score kept)%Q.
Proof.
  split; [apply fetch_crypto_news_eq|].
  intros coingecko cryptopanic prices newsapi. cbv zeta.
  rewrite rank_and_limit_length.
  split; [lia|]. split; [lia|]. apply rank_and_limit_top.
Qed.

(** C8.  If the fetch of one source fails, the aggregator returns what it
    returns for the outputs of the other sources alone, as if the failed
    source had returned an empty sequence; and a list of at most 10 results
    is returned whole. *)
Theorem failed_source_leaves_the_others (q : string) (filter_param : pyval) :
  let news := fetch_crypto_news P cfg net (PStr q) filter_param in
  let coingecko := out_coingecko P net q in
  let cryptopanic := out_cryptopanic P cfg net q in
  let prices := out_prices P net q in
  let newsapi := out_newsapi P cfg net q in
  (fetch_failed net coingecko_url coingecko_coins ->
   news = Ok (rank_and_limit (cryptopanic ++ prices ++ newsapi)))
  /\ (fetch_failed net (cryptopanic_url cfg (PyStr.lower q))
        cryptopanic_posts ->
      news = Ok (rank_and_limit (coingecko ++ prices ++ newsapi)))
  /\ (fetch_failed net (prices_url (select_coin_ids (PyStr.lower q)))
        Py.items ->
      news = Ok (rank_and_limit (coingecko ++ cryptopanic ++ newsapi)))
  /\ (fetch_failed net (newsapi_url cfg) newsapi_articles ->
      news = Ok (rank_and_limit (coingecko ++ cryptopanic ++ prices)))
  /\ forall results : list SearchResult,
       List.length results <= 10 ->
       Permutation (rank_and_limit results) results.
Proof.
  cbv zeta. rewrite fetch_crypto_news_eq. unfold concatenated.
  split; [|split; [|split; [|split]]].
  - intros H. now rewrite (out_coingecko_failed P net q H).
  - intros H. now rewrite (out_cryptopanic_failed P cfg net q H).
  - intros H. now rewrite (out_prices_failed P net q H).
  - intros H. rewrite (out_newsapi_failed P cfg net q H).
    now rewrite !app_nil_r.
  - intros results Hlen. unfold rank_and_limit.
    rewrite firstn_all2; [apply py_sort_reverse_perm|].
    now rewrite (Permutation_length (py_sort_reverse_perm score results)).
Qed.
End AggregatorSpec.

Lemma aggregator_keeps_top_ten_witness :
  List.length
    (rank_and_limit
       (Sample.five_results (1 # 2) ++ Sample.five_results (6 # 10)
        ++ Sample.five_results (7 # 10) ++ Sample.five_results (8 # 10))%list)
  = 10.
Proof.
  destruct (aggregator_keeps_top_ten Sample.prims Sample.keys Sample.net
              "bitcoin" (PStr "")) as [_ H].
  specialize (H (Sample.five_results (1 # 2)) (Sample.five_results (6 # 10))
                (Sample.five_results (7 # 10)) (Sample.five_results (8 # 10))).
  cbv zeta in H. destruct H as [_ [H _]]. apply H. simpl. lia.
Defined.

Lemma failed_source_leaves_the_others_witness :
  fetch_crypto_news Sample.prims Sample.keys Sample.net_trending_down
    (PStr "bitcoin") (PStr "")
  = Ok (rank_and_limit
          (out_cryptopanic Sample.prims Sample.keys Sample.net_trending_down
             "bitcoin"
           ++ out_prices Sample.prims Sample.net_trending_down "bitcoin"
           ++ out_newsapi Sample.prims Sample.keys Sample.net_trending_down
                "bitcoin")%list).
Proof.
  destruct (failed_source_leaves_the_others Sample.prims Sample.keys
              Sample.net_trending_down "bitcoin" (PStr "")) as [H _].
  apply H. apply status_not_200 with (resp := Sample.server_error);
    [reflexivity | discriminate].
Defined.

(* ------------------------------------------------------------------ *)
(** ** The source fetchers: the specified behaviour *)
(* ------------------------------------------------------------------ *)

Section MappedItems.
Context {A : Type} (mk : A -> res SearchResult).

Lemma maps_items_records (scored : A -> SearchResult -> Prop)
    (items : list A) :
  (forall x r, mk x = Ok r -> scored x r) ->
  maps_items mk scored items (records_until_error mk items).
Proof.
  intros Hscored. split.
  - destruct (records_until_error_prefix mk items) as [mapped [Hstarts H]].
    exists mapped. split; [exact Hstarts|].
    eapply Forall2_impl; [|exact H]. intros x r Hx. split; [exact Hx|].
    now apply Hscored.
  - apply records_until_error_all_length.
Qed.
End MappedItems.

(** No text makes the scorer return 0.9 for the query "zzz". *)
Lemma zzz_never_scores_09 (text : pyval) :
  ~ returns (calculate_relevance_score (PStr "zzz") text) (9 # 10).
Proof.
  intros [s [H Hs]]. unfold calculate_relevance_score in H.
  change (Py.truthy (PStr "zzz")) with true in H. simpl negb in H.
  rewrite orb_false_l in H.
  destruct (Py.truthy text); simpl negb in H; cbv iota in H;
    [|inversion H; subst; discriminate Hs].
  change (Py.lower (PStr "zzz")) with (Ok "zzz") in H.
  unfold bind at 1 in H.
  destruct (Py.lower text) as [text_lower|e]; simpl bind in H;
    [|discriminate H].
  destruct (PyStr.contains text_lower "zzz");
    [inversion H; subst; discriminate Hs|].
  change (filter (fun w => Nat.ltb 3 (String.length w)) (PyStr.split "zzz"))
    with (@nil string) in H.
  inversion H; subst; discriminate Hs.
Qed.

(** C4, as stated, fails on the price fetcher: it maps every entry of the
    response, six of them here, and scores each 0.9, which is not the
    relevance of any text to the query. *)
Lemma price_fetcher_maps_all_at_fixed_score :
  exists rs,
    fetch_crypto_prices Sample.prims Sample.net_six_prices (PStr "zzz") = Ok rs
    /\ List.length rs = 6
    /\ Forall (fun r =>
                 forall text,
                   ~ returns (calculate_relevance_score (PStr "zzz") text)
                       (score r)) rs.
Proof.
  eexists. split; [vm_compute; reflexivity|]. split; [reflexivity|].
  repeat constructor; simpl; apply zzz_never_scores_09.
Qed.

Section FetcherSpec.
Variable P : text_prims.
Variable cfg : config.
Variable net : network.

(** C4, amended.  On a successful provider response the trending,
    CryptoPanic and NewsAPI fetchers map an initial segment of the first 3,
    5 and 3 items of the provider's list into records (all of them when no
    item raises), each scored by the relevance function applied to the
    query and the name of the coin (trending) or the title of the item,
    which is the title of the record (CryptoPanic, NewsAPI); the price
    fetcher maps the entries of the response with no bound and gives every
    record the score 0.9. *)
Theorem fetchers_map_and_score (q : string) :
  (forall l,
      responds_with_list net coingecko_url "coins" l ->
      exists rs,
        fetch_from_coingecko P net (PStr q) = Ok rs
        /\ List.length rs <= 3
        /\ maps_items (coingecko_result P (PStr q))
             (scored_by (PStr q) coin_name) (firstn 3 l) rs)
  /\ (forall l,
         responds_with_list net (cryptopanic_url cfg (PyStr.lower q))
           "results" l ->
         exists rs,
           fetch_from_cryptopanic P cfg net (PStr q) = Ok rs
           /\ List.length rs <= 5
           /\ maps_items (cryptopanic_result P (PStr q))
                (fun post r =>
                   scored_by (PStr q) item_title post r
                   /\ item_title post = Ok (title r))
                (firstn 5 l) rs)
  /\ (forall l,
         responds_with_list net (newsapi_url cfg) "articles" l ->
         exists rs,
           fetch_from_newsapi P cfg net (PStr q) = Ok rs
           /\ List.length rs <= 3
           /\ maps_items (newsapi_result P (PStr q))
                (fun article r =>
                   scored_by (PStr q) item_title article r
                   /\ item_title article = Ok (title r))
                (firstn 3 l) rs)
  /\ (forall entries,
         fetch_succeeded net (prices_url (select_coin_ids (PyStr.lower q)))
           Py.items entries ->
         exists rs,
           fetch_crypto_prices P net (PStr q) = Ok rs
           /\ maps_items (price_result P)
                (fun _ r => score r = (9 # 10)%Q) entries rs).
Proof.
  split; [|split; [|split]].
  - intros l [resp [data [Hnet [Hstatus [Hjson Hlist]]]]].
    eexists. split; [|split].
    + apply coingecko_succeeded. exists resp, data.
      repeat split; try eassumption.
      unfold coingecko_coins. apply listed_items. exact Hlist.
    + etransitivity; [apply records_until_error_length|].
      rewrite length_firstn. lia.
    + apply maps_items_records. apply coingecko_result_scored.
  - intros l [resp [data [Hnet [Hstatus [Hjson Hlist]]]]].
    eexists. split; [|split].
    + apply cryptopanic_succeeded. exists resp, data.
      repeat split; try eassumption.
      unfold cryptopanic_posts. apply listed_items. exact Hlist.
    + etransitivity; [apply records_until_error_length|].
      rewrite length_firstn. lia.
    + apply maps_items_records. apply cryptopanic_result_scored.
  - intros l [resp [data [Hnet [Hstatus [Hjson Hlist]]]]].
    eexists. split; [|split].
    + apply newsapi_succeeded. exists resp, data.
      repeat split; try eassumption.
      unfold newsapi_articles. apply listed_items. exact Hlist.
    + etransitivity; [apply records_until_error_length|].
      rewrite length_firstn. lia.
    + apply maps_items_records. apply newsapi_result_scored.
  - intros entries H. eexists. split.
    + apply prices_succeeded. exact H.
    + apply maps_items_records. apply price_result_score.
Qed.

(** C7, amended.  For every query string no source fetcher propagates
    an exception; each returns an empty sequence when its outbound call
    raises or answers a status other than 200, or when decoding the body or
    reading the items off it raises; and when mapping an item raises it
    returns the records of the items before that one. *)
Theorem fetchers_never_raise (q : string) :
  ((exists rs, fetch_from_coingecko P net (PStr q) = Ok rs)
   /\ (exists rs, fetch_from_cryptopanic P cfg net (PStr q) = Ok rs)
   /\ (exists rs, fetch_crypto_prices P net (PStr q) = Ok rs)
   /\ (exists rs, fetch_from_newsapi P cfg net (PStr q) = Ok rs))
  /\ ((fetch_failed net coingecko_url coingecko_coins ->
       fetch_from_coingecko P net (PStr q) = Ok [])
      /\ (fetch_failed net (cryptopanic_url cfg (PyStr.lower q))
            cryptopanic_posts ->
          fetch_from_cryptopanic P cfg net (PStr q) = Ok [])
      /\ (fetch_failed net (prices_url (select_coin_ids (PyStr.lower q)))
            Py.items ->
          fetch_crypto_prices P net (PStr q) = Ok [])
      /\ (fetch_failed net (newsapi_url cfg) newsapi_articles ->
          fetch_from_newsapi P cfg net (PStr q) = Ok []))
  /\ ((forall coins,
          fetch_succeeded net coingecko_url coingecko_coins coins ->
          fetch_from_coingecko P net (PStr q)
          = Ok (records_until_error (coingecko_result P (PStr q)) coins))
      /\ (forall posts,
             fetch_succeeded net (cryptopanic_url cfg (PyStr.lower q))
               cryptopanic_posts posts ->
             fetch_from_cryptopanic P cfg net (PStr q)
             = Ok (records_until_error (cryptopanic_result P (PStr q)) posts))
      /\ (forall entries,
             fetch_succeeded net
               (prices_url (select_coin_ids (PyStr.lower q)))
               Py.items entries ->
             fetch_crypto_prices P net (PStr q)
             = Ok (records_until_error (price_result P) entries))
      /\ (forall articles,
             fetch_succeeded net (newsapi_url cfg) newsapi_articles
               articles ->
             fetch_from_newsapi P cfg net (PStr q)
             = Ok (records_until_error (newsapi_result P (PStr q))
                     articles))).
Proof.
  split; [|split].
  - repeat split;
      [apply coingecko_total | apply cryptopanic_total | apply prices_total
      | apply newsapi_total].
  - repeat split;
      [apply coingecko_failed | apply cryptopanic_failed | apply prices_failed
      | apply newsapi_failed].
  - repeat split; intros items H;
      [apply coingecko_succeeded | apply cryptopanic_succeeded
      | apply prices_succeeded | apply newsapi_succeeded]; exact H.
Qed.
End FetcherSpec.

(** C7, as stated, fails when a step raises after a record was appended:
    the second post of this answer makes the loop raise, and the fetcher
    returns the record of the first. *)
Lemma exception_after_first_post_keeps_it :
  snd (cryptopanic_try Sample.prims Sample.keys Sample.net_broken_post
         (PStr "bitcoin") [])
  = Raise AttributeError
  /\ exists r,
       fetch_from_cryptopanic Sample.prims Sample.keys Sample.net_broken_post
         (PStr "bitcoin")
       = Ok [r].
Proof.
  split; [vm_compute; reflexivity|].
  eexists. vm_compute. reflexivity.
Qed.

Lemma fetchers_map_and_score_witness :
  (exists rs,
      fetch_from_coingecko Sample.prims Sample.net (PStr "bitcoin") = Ok rs
      /\ List.length rs <= 3
      /\ maps_items (coingecko_result Sample.prims (PStr "bitcoin"))
           (scored_by (PStr "bitcoin") coin_name)
           (firstn 3 Sample.trending_coins) rs)
  /\ (exists rs,
         fetch_from_cryptopanic Sample.prims Sample.keys Sample.net
           (PStr "bitcoin") = Ok rs
         /\ List.length rs <= 5
         /\ maps_items (cryptopanic_result Sample.prims (PStr "bitcoin"))
              (fun post r =>
                 scored_by (PStr "bitcoin") item_title post r
                 /\ item_title post = Ok (title r))
              (firstn 5 Sample.posts) rs)
  /\ (exists rs,
         fetch_from_newsapi Sample.prims Sample.keys Sample.net
           (PStr "bitcoin") = Ok rs
         /\ List.length rs <= 3
         /\ maps_items (newsapi_result Sample.prims (PStr "bitcoin"))
              (fun article r =>
                 scored_by (PStr "bitcoin") item_title article r
                 /\ item_title article = Ok (title r))
              (firstn 3 Sample.articles) rs)
  /\ (exists rs,
         fetch_crypto_prices Sample.prims Sample.net (PStr "bitcoin") = Ok rs
         /\ maps_items (price_result Sample.prims)
              (fun _ r => score r = (9 # 10)%Q) Sample.one_price rs).
Proof.
  destruct (fetchers_map_and_score Sample.prims Sample.keys Sample.net
              "bitcoin") as [H1 [H2 [H3 H4]]].
  split; [|split; [|split]].
  - apply H1. exists (Sample.ok_json Sample.trending_body),
      Sample.trending_body. repeat split.
  - apply H2. exists (Sample.ok_json Sample.posts_body), Sample.posts_body.
    repeat split.
  - apply H3. exists (Sample.ok_json Sample.articles_body),
      Sample.articles_body. repeat split.
  - apply H4. exists (Sample.ok_json Sample.one_price_body),
      Sample.one_price_body. repeat split.
Defined.

Lemma fetchers_never_raise_witness :
  (fetch_from_coingecko Sample.prims Sample.net_down (PStr "bitcoin") = Ok []
   /\ fetch_from_cryptopanic Sample.prims Sample.keys Sample.net_down
        (PStr "bitcoin") = Ok []
   /\ fetch_crypto_prices Sample.prims Sample.net_down (PStr "bitcoin") = Ok []
   /\ fetch_from_newsapi Sample.prims Sample.keys Sample.net_down
        (PStr "bitcoin") = Ok [])
  /\ fetch_from_cryptopanic Sample.prims Sample.keys Sample.net_broken_post
       (PStr "bitcoin")
     = Ok (records_until_error
             (cryptopanic_result Sample.prims (PStr "bitcoin"))
             [Sample.post "Bitcoin rallies today"; PInt 5])
  /\ fetch_from_coingecko Sample.prims Sample.net (PStr "bitcoin")
     = Ok (records_until_error
             (coingecko_result Sample.prims (PStr "bitcoin"))
             (firstn 3 Sample.trending_coins))
  /\ fetch_crypto_prices Sample.prims Sample.net (PStr "bitcoin")
     = Ok (records_until_error (price_result Sample.prims) Sample.one_price)
  /\ fetch_from_newsapi Sample.prims Sample.keys Sample.net (PStr "bitcoin")
     = Ok (records_until_error
             (newsapi_result Sample.prims (PStr "bitcoin"))
             (firstn 3 Sample.articles)).
Proof.
  split; [|split; [|split; [|split]]].
  - destruct (fetchers_never_raise Sample.prims Sample.keys Sample.net_down
                "bitcoin") as [_ [[F1 [F2 [F3 F4]]] _]].
    split; [|split; [|split]];
      [apply F1 | apply F2 | apply F3 | apply F4];
      apply call_raises with (e := RequestException); reflexivity.
  - destruct (fetchers_never_raise Sample.prims Sample.keys
                Sample.net_broken_post "bitcoin") as [_ [_ [_ [S2 _]]]].
    apply S2.
    exists (Sample.ok_json
              (PDict [("results",
                       PList [Sample.post "Bitcoin rallies today"; PInt 5])])).
    eexists. repeat split.
  - destruct (fetchers_never_raise Sample.prims Sample.keys Sample.net
                "bitcoin") as [_ [_ [S1 _]]].
    apply S1. exists (Sample.ok_json Sample.trending_body),
      Sample.trending_body. repeat split.
  - destruct (fetchers_never_raise Sample.prims Sample.keys Sample.net
                "bitcoin") as [_ [_ [_ [_ [S3 _]]]]].
    apply S3. exists (Sample.ok_json Sample.one_price_body),
      Sample.one_price_body. repeat split.
  - destruct (fetchers_never_raise Sample.prims Sample.keys Sample.net
                "bitcoin") as [_ [_ [_ [_ [_ S4]]]]].
    apply S4. exists (Sample.ok_json Sample.articles_body),
      Sample.articles_body. repeat split.
Defined.

(* ------------------------------------------------------------------ *)
(** ** The relevance scorer: further properties *)
(* ------------------------------------------------------------------ *)

Section ScorerMore.
Import PyStr PyStrFacts.

Lemma chr_lower_idem (c : ascii) : chr_lower (chr_lower c) = chr_lower c.
Proof. destruct c as [[] [] [] [] [] [] [] []]; reflexivity. Qed.

Lemma lower_idem (s : string) : lower (lower s) = lower s.
Proof.
  induction s as [|c s IH]; simpl; [reflexivity|].
  now rewrite chr_lower_idem, IH.
Qed.



Lemma lower_nonempty (s : string) : s <> "" -> lower s <> "".
Proof. intros H H'. apply H. now apply lower_empty. Qed.

(** The scorer reads its string arguments through [lower] only. *)
Lemma score_of_lowered (q t : string) :
  calculate_relevance_score (PStr q) (PStr t)
  = calculate_relevance_score (PStr (lower q)) (PStr (lower t)).
Proof.
  destruct (string_dec q "") as [->|Hq]; [reflexivity|].
  destruct (string_dec t "") as [->|Ht].
  - rewrite !score_empty; [reflexivity | now right | now right].
  - rewrite (score_nonempty q t Hq Ht).
    rewrite (score_nonempty (lower q) (lower t))
      by (now apply lower_nonempty).
    unfold long_words, words_in. now rewrite !lower_idem.
Qed.

(** X1.  The scorer is case-insensitive: two queries that lowercase to the
    same string and two texts that lowercase to the same string get the
    same score. *)
Theorem relevance_ignores_case (q q' t t' : string) :
  lower q = lower q' -> lower t = lower t' ->
  calculate_relevance_score (PStr q) (PStr t)
  = calculate_relevance_score (PStr q') (PStr t').
Proof.
  intros Hq Ht. rewrite (score_of_lowered q t), (score_of_lowered q' t').
  now rewrite Hq, Ht.
Qed.

Lemma relevance_ignores_case_witness :
  calculate_relevance_score (PStr "SOLANA price") (PStr "Solana Price Drops")
  = calculate_relevance_score (PStr "solana PRICE") (PStr "SOLANA PRICE DROPS").
Proof.
  apply (relevance_ignores_case "SOLANA price" "solana PRICE"
           "Solana Price Drops" "SOLANA PRICE DROPS"); reflexivity.
Defined.

(** The scorer on any two values: the outcome by truthiness and type. *)
Lemma score_dynamic (query text : pyval) :
  calculate_relevance_score query text
  = if negb (Py.truthy query) || negb (Py.truthy text) then Ok (1 # 2)%Q
    else match query, text with
         | PStr q, PStr t => calculate_relevance_score (PStr q) (PStr t)
         | _, _ => Raise AttributeError
         end.
Proof.
  unfold calculate_relevance_score at 1.
  destruct (negb (Py.truthy query) || negb (Py.truthy text)) eqn:E;
    [reflexivity|].
  destruct query; try reflexivity.
  destruct text; try reflexivity.
  unfold calculate_relevance_score. now rewrite E.
Qed.

(** Whatever the values, a score that is returned lies in [0.5, 0.95]. *)
Lemma score_dynamic_range (query text : pyval) (s : Q) :
  calculate_relevance_score query text = Ok s ->
  (1 # 2 <= s)%Q /\ (s <= 19 # 20)%Q.
Proof.
  rewrite score_dynamic.
  destruct (negb (Py.truthy query) || negb (Py.truthy text)).
  - intros H. inversion H; subst. split; lra.
  - destruct query; try discriminate. destruct text; try discriminate.
    intros H. destruct (score_range s0 s1) as [s' [Hs' Hr]].
    rewrite H in Hs'. inversion Hs'; subst. exact Hr.
Qed.

(** X2.  On arbitrary decoded values the scorer returns 0.5 as soon as the
    query or the text is falsy (None, 0, an empty string or container),
    whatever the type of the other; when both are truthy it raises
    AttributeError unless both are strings. *)
Theorem relevance_on_any_values (query text : pyval) :
  (Py.truthy query = false \/ Py.truthy text = false ->
   calculate_relevance_score query text = Ok (1 # 2)%Q)
  /\ (Py.truthy query = true -> Py.truthy text = true ->
      is_str query && is_str text = false ->
      calculate_relevance_score query text = Raise AttributeError)
  /\ (Py.truthy query = true -> Py.truthy text = true ->
      is_str query && is_str text = true ->
      returns_within (calculate_relevance_score query text)
        (1 # 2) (19 # 20)).
Proof.
  rewrite score_dynamic. split; [|split].
  - intros [H | H]; rewrite H; [reflexivity | now rewrite orb_true_r].
  - intros Hq Ht Hstr. rewrite Hq, Ht. simpl.
    destruct query; try reflexivity. destruct text; try reflexivity.
    discriminate Hstr.
  - intros Hq Ht Hstr. rewrite Hq, Ht. simpl.
    destruct query; try discriminate Hstr.
    destruct text; try discriminate Hstr. apply score_range.
Qed.

Lemma relevance_on_any_values_witness :
  calculate_relevance_score (PStr "bitcoin") (PList []) = Ok (1 # 2)%Q
  /\ calculate_relevance_score (PStr "bitcoin") (PList [PStr "Bitcoin"])
     = Raise AttributeError
  /\ returns_within
       (calculate_relevance_score (PStr "bitcoin") (PStr "Bitcoin"))
       (1 # 2) (19 # 20).
Proof.
  split; [|split].
  - destruct (relevance_on_any_values (PStr "bitcoin") (PList []))
      as [H _]. apply H. now right.
  - destruct (relevance_on_any_values (PStr "bitcoin")
                (PList [PStr "Bitcoin"])) as [_ [H _]].
    apply H; reflexivity.
  - destruct (relevance_on_any_values (PStr "bitcoin") (PStr "Bitcoin"))
      as [_ [_ H]]. apply H; reflexivity.
Defined.
End ScorerMore.

Section ScorerOrder.
Import PyStr PyStrFacts.

Lemma ok_inj {A : Type} (a b : A) : Ok a = Ok b -> a = b.
Proof. intros H. now injection H. Qed.


Lemma fraction_whole (n : nat) : 0 < n -> (fraction n n == 1)%Q.
Proof.
  intros H. unfold fraction, Qdiv. apply Qmult_inv_r.
  intros H0. unfold Qeq in H0. simpl in H0. lia.
Qed.


Lemma filter_all {A : Type} (f : A -> bool) (l : list A) :
  (forall x, In x l -> f x = true) -> filter f l = l.
Proof.
  induction l as [|x l IH]; intros H; simpl; [reflexivity|].
  rewrite (H x) by now left. f_equal. apply IH. intros y Hy. apply H.
  now right.
Qed.

Lemma long_words_length (q w : string) :
  In w (long_words q) -> 3 < String.length w.
Proof.
  unfold long_words. rewrite filter_In. intros [_ H].
  now apply Nat.ltb_lt in H.
Qed.

(** X3.  Only a verbatim occurrence scores above 0.9: a returned score
    above 0.9 is 0.95 and the lowercased query occurs in the lowercased
    text; when it does not occur and all its long words do, the score is
    0.9. *)
Theorem only_exact_match_scores_above_09 (q t : string) (s : Q) :
  calculate_relevance_score (PStr q) (PStr t) = Ok s ->
  ((9 # 10 < s)%Q ->
   q <> "" /\ t <> "" /\ is_substring (lower q) (lower t)
   /\ s = (19 # 20)%Q)
  /\ (~ is_substring (lower q) (lower t) ->
      long_words q <> [] ->
      (forall w, In w (long_words q) -> is_substring w (lower t)) ->
      (s == 9 # 10)%Q).
Proof.
  intros Hs. split.
  - intros Hhigh.
    destruct (string_dec q "") as [Hq|Hq];
      [rewrite score_empty in Hs by (now left); apply ok_inj in Hs; subst s; lra|].
    destruct (string_dec t "") as [Ht|Ht];
      [rewrite score_empty in Hs by (now right); apply ok_inj in Hs; subst s; lra|].
    rewrite score_nonempty in Hs by assumption.
    destruct (contains (lower t) (lower q)) eqn:E.
    + apply contains_spec in E. apply ok_inj in Hs; subst s. now repeat split.
    + destruct (long_words q) as [|w W] eqn:EW;
        [apply ok_inj in Hs; subst s; lra|].
      apply ok_inj in Hs; subst s.
      destruct (fraction_unit (List.length (words_in t (w :: W)))
                  (List.length (w :: W)))
        as [_ H1]; [apply words_in_length | simpl; lia |].
      exfalso. lra.
  - intros Hout HW Hall.
    assert (Hq : q <> "").
    { intros ->. apply Hout. exists "", (lower t). reflexivity. }
    assert (Ht : t <> "").
    { intros ->. destruct (long_words q) as [|w W] eqn:EW; [now apply HW|].
      assert (Hw : In w (long_words q)) by (rewrite EW; now left).
      pose proof (long_words_length q w Hw) as Hlen.
      pose proof (Hall w (or_introl eq_refl)) as Hin.
      apply substring_length in Hin. simpl in Hin. lia. }
    rewrite score_nonempty in Hs by assumption.
    apply contains_false in Hout. rewrite Hout in Hs.
    destruct (long_words q) as [|w W] eqn:EW; [now contradiction HW|].
    apply ok_inj in Hs; subst s. unfold words_in. rewrite filter_all.
    + rewrite fraction_whole by (simpl; lia). lra.
    + intros x Hx. apply contains_spec, Hall, Hx.
Qed.

Lemma only_exact_match_scores_above_09_witness :
  is_substring (lower "bitcoin") (lower "Bitcoin rallies")
  /\ ((1 # 2) + fraction 2 2 * (2 # 5) == 9 # 10)%Q.
Proof.
  split.
  - destruct (only_exact_match_scores_above_09 "bitcoin" "Bitcoin rallies"
                (19 # 20) eq_refl) as [H _].
    apply H. reflexivity.
  - destruct (only_exact_match_scores_above_09 "solana price"
                "Price of Solana" _ eq_refl) as [_ H].
    apply H.
    + apply contains_false. reflexivity.
    + discriminate.
    + intros w [<- | [<- | []]]; apply contains_spec; reflexivity.
Defined.


End ScorerOrder.

(* ------------------------------------------------------------------ *)
(** ** Ranking: further properties *)
(* ------------------------------------------------------------------ *)

Section RankingMore.

Lemma py_sort_reverse_sorted_input (results : list SearchResult) :
  StronglySorted (descending score) results ->
  py_sort score true results = results.
Proof.
  intros H. symmetry. now apply py_sort_reverse_unique.
Qed.

Lemma rank_and_limit_fixed (results : list SearchResult) :
  StronglySorted (descending score) results ->
  List.length results <= 10 ->
  rank_and_limit results = results.
Proof.
  intros Hs Hlen. unfold rank_and_limit.
  rewrite py_sort_reverse_sorted_input by exact Hs.
  now apply firstn_all2.
Qed.

(** X5.  A list that is already ranked and holds at most 10 results goes
    through the ranking step unchanged, ties included. *)
Theorem ranked_short_list_is_kept (results : list SearchResult) :
  StronglySorted (descending score) results ->
  List.length results <= 10 ->
  rank_and_limit results = results.
Proof. apply rank_and_limit_fixed. Qed.

Lemma ranked_short_list_is_kept_witness :
  rank_and_limit [Sample.scored (9 # 10); Sample.scored (1 # 2);
                  Sample.scored (5 # 10)]
  = [Sample.scored (9 # 10); Sample.scored (1 # 2); Sample.scored (5 # 10)].
Proof.
  apply ranked_short_list_is_kept.
  - repeat constructor; unfold descending; simpl; lra.
  - simpl. lia.
Defined.

(** X6.  Ranking is idempotent: ranking the aggregator's output again
    gives the same list. *)
Theorem rank_and_limit_idempotent (results : list SearchResult) :
  rank_and_limit (rank_and_limit results) = rank_and_limit results.
Proof.
  apply rank_and_limit_fixed; [apply rank_and_limit_sorted|].
  rewrite rank_and_limit_length. lia.
Qed.

(** X7.  When the sources return anything, the first result of the
    ranking has the highest score of the input, and among the results of
    that score it is the one that comes first in the input. *)
Theorem first_result_is_first_best (results : list SearchResult) :
  results <> [] ->
  exists best rest,
    rank_and_limit results = best :: rest
    /\ (forall r, In r results -> (score r <= score best)%Q)
    /\ hd_error (with_key score (score best) results) = Some best.
Proof.
  intros Hne.
  destruct (rank_and_limit results) as [|best rest] eqn:E.
  - pose proof (rank_and_limit_length results) as Hlen. rewrite E in Hlen.
    destruct results; [now contradiction Hne | simpl in Hlen; lia].
  - exists best, rest. split; [reflexivity|]. split.
    + intros r Hr.
      pose proof (py_sort_reverse_sorted score results) as Hs.
      unfold rank_and_limit in E.
      destruct (py_sort score true results) as [|x sorted] eqn:Es;
        [discriminate E|].
      simpl in E. injection E as -> _.
      apply descending_head with sorted; [exact Hs|].
      rewrite <- Es.
      apply (Permutation_in r (Permutation_sym
                                 (py_sort_reverse_perm score results))).
      exact Hr.
    + destruct (rank_and_limit_stable (score best) results) as [tl Htl].
      rewrite E, with_key_cons in Htl.
      assert (Hb : Qeq_bool (score best) (score best) = true)
        by (apply Qeq_bool_iff; reflexivity).
      rewrite Hb in Htl. now rewrite Htl.
Qed.

Lemma first_result_is_first_best_witness :
  exists best rest,
    rank_and_limit (Sample.five_results (1 # 2)
                    ++ Sample.five_results (1 # 2))%list = best :: rest
    /\ score best = ((1 # 2) + (4 # 100))%Q.
Proof.
  destruct (first_result_is_first_best
              (Sample.five_results (1 # 2) ++ Sample.five_results (1 # 2))%list)
    as [best [rest [H _]]]; [discriminate|].
  exists best, rest. split; [exact H|].
  vm_compute in H. now injection H as <- _.
Defined.
End RankingMore.

(* ------------------------------------------------------------------ *)
(** ** The source fetchers on any query and any network *)
(* ------------------------------------------------------------------ *)

Section ItemLists.

Lemma chars_take_length (n : nat) (s : string) :
  List.length (PyStr.chars (PyStr.take n s)) <= n.
Proof.
  revert s. induction n as [|n IH]; intros s; simpl; [lia|].
  destruct s as [|c s]; simpl; [lia|]. specialize (IH s). lia.
Qed.

(** The loops of the list fetchers run over at most [n] items, whatever
    the body holds under [key]. *)
Lemma sliced_items_length (key : string) (n : nat) (data : pyval)
    (items : list pyval) :
  (found <- Py.get data key (PList []) ;;
   head <- Py.slice_to found n ;;
   Py.iter head)%py = Ok items ->
  List.length items <= n.
Proof.
  destruct data; simpl; try discriminate.
  destruct (Py.lookup d key) as [found|]; simpl.
  - destruct found; simpl; try discriminate; intros H; apply ok_inj in H;
      subst items.
    + rewrite length_map. apply chars_take_length.
    + rewrite length_firstn. lia.
  - intros H. apply ok_inj in H. subst items. rewrite firstn_nil. simpl. lia.
Qed.
End ItemLists.

(** Closes a branch in which the [try] body appended nothing. *)
Ltac nothing_appended :=
  exists []; split; [simpl; lia | reflexivity].

(** Runs a [try] body through every outcome of its outbound call. *)
Ltac run_any extract :=
  open_try;
  let resp := fresh "resp" in
  let data := fresh "data" in
  let items := fresh "items" in
  let e := fresh "e" in
  let Eitems := fresh "Eitems" in
  match goal with
  | |- context [match ?net ?url with _ => _ end] =>
      destruct (net url) as [resp|e]; [|nothing_appended]
  end;
  destruct (status_code resp =? 200)%Z; [|nothing_appended];
  destruct (json resp) as [data|e]; [|nothing_appended];
  destruct (extract data) as [items|e] eqn:Eitems; [|nothing_appended];
  exists items; split;
    [ eapply sliced_items_length; exact Eitems
    | rewrite for_append_spec; destruct (first_error _ _); reflexivity ].

Section FetcherShapes.
Variable P : text_prims.
Variable cfg : config.
Variable net : network.

Lemma coingecko_shape (query : pyval) :
  exists coins,
    List.length coins <= 3
    /\ fetch_from_coingecko P net query
       = Ok (records_until_error (coingecko_result P query) coins).
Proof.
  unfold fetch_from_coingecko, coingecko_try. run_any coingecko_coins.
Qed.

Lemma newsapi_shape (query : pyval) :
  exists articles,
    List.length articles <= 3
    /\ fetch_from_newsapi P cfg net query
       = Ok (records_until_error (newsapi_result P query) articles).
Proof.
  unfold fetch_from_newsapi, newsapi_try. run_any newsapi_articles.
Qed.

Lemma cryptopanic_shape (query : pyval) :
  exists posts,
    List.length posts <= 5
    /\ fetch_from_cryptopanic P cfg net query
       = Ok (records_until_error (cryptopanic_result P query) posts).
Proof.
  unfold fetch_from_cryptopanic, cryptopanic_try.
  destruct query; try nothing_appended.
  run_any cryptopanic_posts.
Qed.

Lemma prices_shape (q : string) :
  exists entries,
    fetch_crypto_prices P net (PStr q)
    = Ok (records_until_error (price_result P) entries).
Proof.
  unfold fetch_crypto_prices, prices_try, bind, Py.lower. open_try.
  destruct (net _) as [resp|e]; [|now exists []].
  destruct (status_code resp =? 200)%Z; [|now exists []].
  destruct (json resp) as [data|e]; [|now exists []].
  destruct (Py.items data) as [entries|e]; [|now exists []].
  exists entries. rewrite for_append_spec.
  destruct (first_error _ _); reflexivity.
Qed.

Lemma prices_non_string (query : pyval) :
  is_str query = false ->
  fetch_crypto_prices P net query = Raise AttributeError.
Proof. destruct query; try reflexivity. discriminate. Qed.

(** The score of every record a fetcher builds is in range. *)
Lemma coingecko_result_range (query coin : pyval) (r : SearchResult) :
  coingecko_result P query coin = Ok r -> score_in_range r.
Proof.
  intros H. apply coingecko_result_scored in H.
  destruct H as [text [_ H]]. exact (score_dynamic_range _ _ _ H).
Qed.

Lemma cryptopanic_result_range (query post : pyval) (r : SearchResult) :
  cryptopanic_result P query post = Ok r -> score_in_range r.
Proof.
  intros H. apply cryptopanic_result_scored in H.
  destruct H as [[text [_ H]] _]. exact (score_dynamic_range _ _ _ H).
Qed.

Lemma newsapi_result_range (query article : pyval) (r : SearchResult) :
  newsapi_result P query article = Ok r -> score_in_range r.
Proof.
  intros H. apply newsapi_result_scored in H.
  destruct H as [[text [_ H]] _]. exact (score_dynamic_range _ _ _ H).
Qed.

Lemma price_result_range (entry : string * pyval) (r : SearchResult) :
  price_result P entry = Ok r -> score_in_range r.
Proof.
  intros H. apply price_result_score in H. unfold score_in_range.
  rewrite H. split; lra.
Qed.

(** X8.  Whatever the query (a string or not) and whatever the network
    answers, the trending fetcher returns at most 3 records, the
    CryptoPanic fetcher at most 5 and the NewsAPI fetcher at most 3, and
    none of them raises. *)
Theorem list_fetchers_bounded (query : pyval) :
  (exists rs, fetch_from_coingecko P net query = Ok rs
              /\ List.length rs <= 3)
  /\ (exists rs, fetch_from_cryptopanic P cfg net query = Ok rs
                 /\ List.length rs <= 5)
  /\ (exists rs, fetch_from_newsapi P cfg net query = Ok rs
                 /\ List.length rs <= 3).
Proof.
  split; [|split].
  - destruct (coingecko_shape query) as [items [Hlen ->]].
    eexists. split; [reflexivity|].
    etransitivity; [apply records_until_error_length | exact Hlen].
  - destruct (cryptopanic_shape query) as [items [Hlen ->]].
    eexists. split; [reflexivity|].
    etransitivity; [apply records_until_error_length | exact Hlen].
  - destruct (newsapi_shape query) as [items [Hlen ->]].
    eexists. split; [reflexivity|].
    etransitivity; [apply records_until_error_length | exact Hlen].
Qed.
End FetcherShapes.

(* ------------------------------------------------------------------ *)
(** ** The aggregator on any query and any network *)
(* ------------------------------------------------------------------ *)

Section AggregatorMore.
Variable P : text_prims.
Variable cfg : config.

Lemma rank_and_limit_Forall (Q : SearchResult -> Prop)
    (results : list SearchResult) :
  Forall Q results -> Forall Q (rank_and_limit results).
Proof.
  intros H. unfold rank_and_limit.
  assert (Hs : Forall Q (py_sort score true results)).
  { eapply Permutation_Forall; [|exact H].
    symmetry. apply py_sort_reverse_perm. }
  rewrite <- (firstn_skipn 10 (py_sort score true results)) in Hs.
  now apply Forall_app in Hs.
Qed.

Lemma truthy_key (key : string) : Py.truthy (PStr key) = true <-> key <> "".
Proof.
  destruct key; simpl; split; intros H; try discriminate; try reflexivity.
  now contradiction H.
Qed.

Lemma coingecko_request (net net' : network) (query : pyval) :
  net coingecko_url = net' coingecko_url ->
  fetch_from_coingecko P net query = fetch_from_coingecko P net' query.
Proof.
  intros H. unfold fetch_from_coingecko, coingecko_try. open_try.
  now rewrite H.
Qed.

Lemma cryptopanic_request (net net' : network) (q : string) :
  net (cryptopanic_url cfg (PyStr.lower q))
  = net' (cryptopanic_url cfg (PyStr.lower q)) ->
  fetch_from_cryptopanic P cfg net (PStr q)
  = fetch_from_cryptopanic P cfg net' (PStr q).
Proof.
  intros H. unfold fetch_from_cryptopanic, cryptopanic_try. open_try.
  now rewrite H.
Qed.

Lemma newsapi_request (net net' : network) (query : pyval) :
  net (newsapi_url cfg) = net' (newsapi_url cfg) ->
  fetch_from_newsapi P cfg net query = fetch_from_newsapi P cfg net' query.
Proof.
  intros H. unfold fetch_from_newsapi, newsapi_try. open_try.
  now rewrite H.
Qed.

(** What the aggregator does with a query that is not a string. *)
Lemma fetch_crypto_news_non_string (net : network)
    (query filter_param : pyval) :
  is_str query = false ->
  fetch_crypto_news P cfg net query filter_param = Raise AttributeError.
Proof.
  intros Hq. unfold fetch_crypto_news, extend_if.
  destruct (coingecko_shape P net query) as [coins [_ ->]].
  destruct (cryptopanic_shape P cfg net query) as [posts [_ ->]].
  rewrite (prices_non_string P net query Hq).
  now destruct (Py.truthy (PStr (CRYPTOPANIC_API_KEY cfg))).
Qed.

Lemma fetch_crypto_news_in_range (net : network)
    (query filter_param : pyval) :
  Forall score_in_range
    (results_of (fetch_crypto_news P cfg net query filter_param)).
Proof.
  destruct (is_str query) eqn:Hq;
    [|rewrite fetch_crypto_news_non_string by exact Hq; constructor].
  destruct query; try discriminate Hq. rename s into q.
  rewrite fetch_crypto_news_eq. simpl results_of.
  apply rank_and_limit_Forall. unfold concatenated.
  repeat rewrite Forall_app. repeat split.
  - unfold out_coingecko.
    destruct (coingecko_shape P net (PStr q)) as [items [_ ->]].
    apply records_until_error_Forall, coingecko_result_range.
  - unfold out_cryptopanic.
    destruct (Py.truthy (PStr (CRYPTOPANIC_API_KEY cfg))); [|constructor].
    destruct (cryptopanic_shape P cfg net (PStr q)) as [items [_ ->]].
    apply records_until_error_Forall, cryptopanic_result_range.
  - unfold out_prices.
    destruct (prices_shape P net q) as [items ->].
    apply records_until_error_Forall, price_result_range.
  - unfold out_newsapi.
    destruct (Py.truthy (PStr (NEWSAPI_KEY cfg))); [|constructor].
    destruct (newsapi_shape P cfg net (PStr q)) as [items [_ ->]].
    apply records_until_error_Forall, newsapi_result_range.
Qed.

(** X9.  Every result the aggregator returns, for any query value and
    any network, has a score between 0.5 and 0.95, so within [0, 1]. *)
Theorem every_result_scored_in_range (net : network)
    (query filter_param : pyval) :
  Forall score_in_range
    (results_of (fetch_crypto_news P cfg net query filter_param)).
Proof. apply fetch_crypto_news_in_range. Qed.

(** X10.  The aggregator and the price fetcher return normally exactly on
    a query that is a string: on any other value the price fetcher raises
    AttributeError before its [try], and the aggregator with it, though
    the sources called before have answered. *)
Theorem aggregator_needs_string_query (net : network)
    (query filter_param : pyval) :
  (is_str query = true ->
   exists out,
     fetch_crypto_news P cfg net query filter_param = Ok out
     /\ List.length out <= 10)
  /\ (is_str query = false ->
      fetch_crypto_prices P net query = Raise AttributeError
      /\ fetch_crypto_news P cfg net query filter_param
         = Raise AttributeError).
Proof.
  split.
  - intros Hq. destruct query; try discriminate Hq.
    rewrite fetch_crypto_news_eq. eexists. split; [reflexivity|].
    rewrite rank_and_limit_length. lia.
  - intros Hq. split; [now apply prices_non_string|].
    now apply fetch_crypto_news_non_string.
Qed.

(** X11.  The aggregator reads the network at four URLs at most: the
    trending URL, the price URL of the selected ids, and the CryptoPanic
    and NewsAPI URLs when their key is set.  Two networks that agree there
    give the same results; a source without key is not contacted. *)
Theorem aggregator_reads_its_sources_only (net net' : network) (q : string)
    (filter_param : pyval) :
  net coingecko_url = net' coingecko_url ->
  (CRYPTOPANIC_API_KEY cfg <> "" ->
   net (cryptopanic_url cfg (PyStr.lower q))
   = net' (cryptopanic_url cfg (PyStr.lower q))) ->
  net (prices_url (select_coin_ids (PyStr.lower q)))
  = net' (prices_url (select_coin_ids (PyStr.lower q))) ->
  (NEWSAPI_KEY cfg <> "" -> net (newsapi_url cfg) = net' (newsapi_url cfg)) ->
  fetch_crypto_news P cfg net (PStr q) filter_param
  = fetch_crypto_news P cfg net' (PStr q) filter_param.
Proof.
  intros Hcg Hcp Hpr Hnw. unfold fetch_crypto_news, extend_if.
  rewrite (coingecko_request net net' (PStr q) Hcg).
  rewrite (prices_request P net net' q Hpr).
  destruct (Py.truthy (PStr (CRYPTOPANIC_API_KEY cfg))) eqn:Ecp.
  - apply truthy_key in Ecp.
    rewrite (cryptopanic_request net net' q (Hcp Ecp)).
    destruct (Py.truthy (PStr (NEWSAPI_KEY cfg))) eqn:Enw; [|reflexivity].
    apply truthy_key in Enw.
    now rewrite (newsapi_request net net' (PStr q) (Hnw Enw)).
  - destruct (Py.truthy (PStr (NEWSAPI_KEY cfg))) eqn:Enw; [|reflexivity].
    apply truthy_key in Enw.
    now rewrite (newsapi_request net net' (PStr q) (Hnw Enw)).
Qed.
End AggregatorMore.

Lemma aggregator_needs_string_query_witness :
  (exists out,
      fetch_crypto_news Sample.prims Sample.keys Sample.net (PStr "bitcoin")
        (PStr "") = Ok out
      /\ List.length out <= 10)
  /\ fetch_crypto_news Sample.prims Sample.keys Sample.net
       (PList [PStr "bitcoin"]) (PStr "")
     = Raise AttributeError.
Proof.
  split.
  - destruct (aggregator_needs_string_query Sample.prims Sample.keys
                Sample.net (PStr "bitcoin") (PStr "")) as [H _].
    apply H. reflexivity.
  - destruct (aggregator_needs_string_query Sample.prims Sample.keys
                Sample.net (PList [PStr "bitcoin"]) (PStr "")) as [_ H].
    apply H. reflexivity.
Defined.

Lemma aggregator_reads_its_sources_only_witness :
  fetch_crypto_news Sample.prims SampleMore.no_keys Sample.net
    (PStr "bitcoin") (PStr "")
  = fetch_crypto_news Sample.prims SampleMore.no_keys
      SampleMore.net_free_sources (PStr "bitcoin") (PStr "").
Proof.
  apply aggregator_reads_its_sources_only.
  - reflexivity.
  - intros H. now contradiction H.
  - reflexivity.
  - intros H. now contradiction H.
Defined.

(* ------------------------------------------------------------------ *)
(** ** Which requests the fetchers build *)
(* ------------------------------------------------------------------ *)

Section Requests.
Import PyStr PyStrFacts.

(** X12.  The price fetcher never asks for an empty list of ids: for every
    lowercased query the ids it selects are at least one and at most ten,
    and each is one of bitcoin, ethereum, solana, cardano, ripple. *)
Theorem selected_coin_ids_invariant (query_lower : string) :
  select_coin_ids query_lower <> []
  /\ List.length (select_coin_ids query_lower) <= 10
  /\ Forall (fun id => In id known_coin_ids) (select_coin_ids query_lower).
Proof.
  unfold select_coin_ids. rewrite collect_coin_ids_filter, app_nil_l.
  set (found := filter (fun e => contains query_lower (fst e)) coin_map).
  assert (Hlen : List.length (map snd found) <= 10).
  { rewrite length_map. unfold found.
    etransitivity; [apply filter_length_le | reflexivity]. }
  assert (Hknown : Forall (fun id => In id known_coin_ids) (map snd found)).
  { apply Forall_forall. intros id Hid. apply in_map_iff in Hid.
    destruct Hid as [e [<- He]]. apply filter_In in He. destruct He as [He _].
    simpl in He.
    repeat (destruct He as [<- | He]; [simpl; tauto|]). destruct He. }
  destruct (map snd found) as [|id ids] eqn:E.
  - split; [discriminate|]. split; [simpl; lia|].
    repeat constructor; simpl; tauto.
  - split; [discriminate|]. split; [exact Hlen | exact Hknown].
Qed.

Lemma mentions_two (query_lower a b : string) :
  mentions query_lower [a; b]
  <-> contains query_lower a = true \/ contains query_lower b = true.
Proof.
  unfold mentions. rewrite !contains_spec. split.
  - intros [k [[<- | [<- | []]] Hk]]; [now left | now right].
  - intros [H | H]; [exists a | exists b]; simpl; tauto.
Qed.

Lemma not_mentions_two (query_lower a b : string) :
  ~ mentions query_lower [a; b] ->
  contains query_lower a = false /\ contains query_lower b = false.
Proof.
  rewrite mentions_two. intros H.
  destruct (contains query_lower a), (contains query_lower b);
    try (exfalso; apply H; tauto). now split.
Qed.

(** X13.  The CryptoPanic request carries at most one currency filter,
    chosen by the order of the table and not by the order of the words in
    the query: BTC when the lowercased query mentions bitcoin or btc;
    otherwise ETH when it mentions ethereum or eth; otherwise SOL when it
    mentions solana or sol; otherwise none. *)
Theorem cryptopanic_filter_priority (cfg : config) (query_lower : string) :
  let url := cryptopanic_url cfg query_lower in
  let base := cryptopanic_base cfg in
  (mentions query_lower ["bitcoin"; "btc"] ->
   url = base ++ "&currencies=BTC")
  /\ (~ mentions query_lower ["bitcoin"; "btc"] ->
      mentions query_lower ["ethereum"; "eth"] ->
      url = base ++ "&currencies=ETH")
  /\ (~ mentions query_lower ["bitcoin"; "btc"] ->
      ~ mentions query_lower ["ethereum"; "eth"] ->
      mentions query_lower ["solana"; "sol"] ->
      url = base ++ "&currencies=SOL")
  /\ (~ mentions query_lower ["bitcoin"; "btc"] ->
      ~ mentions query_lower ["ethereum"; "eth"] ->
      ~ mentions query_lower ["solana"; "sol"] ->
      url = base).
Proof.
  cbv zeta. unfold cryptopanic_url. fold (cryptopanic_base cfg).
  generalize (cryptopanic_base cfg) as base. intros base.
  unfold coin_filters, add_currency_filter.
  split; [|split; [|split]].
  - intros H. apply mentions_two in H.
    destruct (contains query_lower "bitcoin"); [reflexivity|].
    destruct H as [H | H]; [discriminate H | now rewrite H].
  - intros Hb He. apply not_mentions_two in Hb. destruct Hb as [-> ->].
    apply mentions_two in He.
    destruct (contains query_lower "ethereum"); [reflexivity|].
    destruct He as [H | H]; [discriminate H | now rewrite H].
  - intros Hb He Hs.
    apply not_mentions_two in Hb. destruct Hb as [-> ->].
    apply not_mentions_two in He. destruct He as [-> ->].
    apply mentions_two in Hs.
    destruct (contains query_lower "solana"); [reflexivity|].
    destruct Hs as [H | H]; [discriminate H | now rewrite H].
  - intros Hb He Hs.
    apply not_mentions_two in Hb. destruct Hb as [-> ->].
    apply not_mentions_two in He. destruct He as [-> ->].
    apply not_mentions_two in Hs. destruct Hs as [-> ->].
    reflexivity.
Qed.

Lemma cryptopanic_filter_priority_witness :
  cryptopanic_url Sample.keys (lower "Ethereum overtakes BTC?")
  = cryptopanic_base Sample.keys ++ "&currencies=BTC"
  /\ cryptopanic_url Sample.keys (lower "Tether reserves")
     = cryptopanic_base Sample.keys ++ "&currencies=ETH"
  /\ cryptopanic_url Sample.keys (lower "A solid week")
     = cryptopanic_base Sample.keys ++ "&currencies=SOL"
  /\ cryptopanic_url Sample.keys (lower "Market news")
     = cryptopanic_base Sample.keys.
Proof.
  assert (Hno : forall ql a b,
             contains ql a = false -> contains ql b = false ->
             ~ mentions ql [a; b]).
  { intros ql a b Ha Hb H. apply mentions_two in H.
    destruct H as [H | H]; congruence. }
  split; [|split; [|split]].
  - destruct (cryptopanic_filter_priority Sample.keys
                (lower "Ethereum overtakes BTC?")) as [H _].
    apply H. apply mentions_two. right. reflexivity.
  - destruct (cryptopanic_filter_priority Sample.keys
                (lower "Tether reserves")) as [_ [H _]].
    apply H; [apply Hno; reflexivity|].
    apply mentions_two. right. reflexivity.
  - destruct (cryptopanic_filter_priority Sample.keys
                (lower "A solid week")) as [_ [_ [H _]]].
    apply H; [apply Hno; reflexivity | apply Hno; reflexivity|].
    apply mentions_two. right. reflexivity.
  - destruct (cryptopanic_filter_priority Sample.keys (lower "Market news"))
      as [_ [_ [_ H]]].
    apply H; apply Hno; reflexivity.
Defined.
End Requests.

(* ------------------------------------------------------------------ *)
(** ** Which items the fetchers can map *)
(* ------------------------------------------------------------------ *)

Section WellFormedItems.
Variable P : text_prims.

Lemma get_field (d : list (string * pyval)) (key : string) (default : pyval) :
  Py.get (PDict d) key default = Ok (field d key default).
Proof. unfold Py.get, field. now destruct (Py.lookup d key). Qed.

Lemma get_ok_dict (v : pyval) (key : string) (default x : pyval) :
  Py.get v key default = Ok x -> is_dict v = true.
Proof. destruct v; simpl; intros H; try discriminate H; reflexivity. Qed.

(** The scorer returns on a string query exactly for the texts it
    accepts. *)
Lemma score_ok_iff (q : string) (text : pyval) :
  (exists s, calculate_relevance_score (PStr q) text = Ok s)
  <-> scorable q text.
Proof.
  rewrite score_dynamic. unfold scorable. split.
  - intros [s H].
    destruct (string_dec q "") as [Hq|Hq]; [now left|right].
    destruct (Py.truthy text) eqn:Et; [right|now left].
    destruct (Py.truthy (PStr q)) eqn:Eq.
    + simpl in H. destruct text; try discriminate H. reflexivity.
    + apply PyStrFacts.truthy_str in Eq. contradiction.
  - intros [-> | [Ht | Hs]].
    + now exists (1 # 2)%Q.
    + rewrite Ht, orb_true_r. now exists (1 # 2)%Q.
    + destruct text; try discriminate Hs.
      destruct (negb (Py.truthy (PStr q)) || negb (Py.truthy (PStr s)));
        [now exists (1 # 2)%Q|].
      destruct (score_range q s) as [x [Hx _]]. now exists x.
Qed.

Lemma format_f_ok_iff (comma : bool) (prec : nat) (v : pyval) :
  (exists text, format_f P comma prec v = Ok text) <-> formattable v = true.
Proof.
  unfold format_f, formattable, float_overflows. split.
  - intros [text H]. destruct v; try discriminate H; try reflexivity.
    destruct (2 ^ 1024 - 2 ^ 970 <=? Z.abs z)%Z; [discriminate H|reflexivity].
  - intros H. destruct v; try discriminate H; try (eexists; reflexivity).
    destruct (2 ^ 1024 - 2 ^ 970 <=? Z.abs z)%Z;
      [discriminate H | eexists; reflexivity].
Qed.

(** X14.  The CryptoPanic fetcher can map a post, for a string query,
    exactly when the post is an object whose title the scorer accepts (a
    string, or a falsy value such as null) and whose source and votes, when
    present, are objects.  Missing keys never make it raise. *)
Theorem cryptopanic_post_well_formed (q : string) (post : pyval) :
  maps_ok (cryptopanic_result P (PStr q)) post
  <-> exists d,
        post = PDict d
        /\ scorable q (field d "title" (PStr ""))
        /\ is_dict (field d "source" (PDict [])) = true
        /\ is_dict (field d "votes" (PDict [])) = true.
Proof.
  unfold maps_ok, cryptopanic_result. split.
  - intros [r H]. destruct post; try discriminate H. exists d.
    split; [reflexivity|]. rewrite ?get_field in H. cbn [bind] in H.
    destruct (calculate_relevance_score (PStr q) (field d "title" (PStr "")))
      as [sc|e] eqn:Esc; [|discriminate H].
    split; [apply score_ok_iff; now exists sc|]. cbn [bind] in H.
    destruct (field d "source" (PDict [])) as [| | | | | |source];
      try discriminate H.
    split; [reflexivity|]. rewrite ?get_field in H. cbn [bind] in H.
    destruct (field d "votes" (PDict [])) as [| | | | | |votes];
      try discriminate H.
    reflexivity.
  - intros [d [-> [Hsc [Hsource Hvotes]]]].
    apply score_ok_iff in Hsc. destruct Hsc as [sc Hsc].
    rewrite ?get_field. cbn [bind]. rewrite Hsc. cbn [bind].
    destruct (field d "source" (PDict [])) as [| | | | | |source];
      try discriminate Hsource.
    rewrite ?get_field. cbn [bind].
    destruct (field d "votes" (PDict [])) as [| | | | | |votes];
      try discriminate Hvotes.
    rewrite ?get_field. cbn [bind]. eexists. reflexivity.
Qed.

(** X15.  The trending fetcher can map a coin, for a string query,
    exactly when the coin is an object whose item is an object (or is
    missing) with a name the scorer accepts, a symbol that is a string and
    data that are an object, each of the three when present. *)
Theorem coingecko_coin_well_formed (q : string) (coin : pyval) :
  maps_ok (coingecko_result P (PStr q)) coin
  <-> exists d item,
        coin = PDict d
        /\ field d "item" (PDict []) = PDict item
        /\ scorable q (field item "name" (PStr ""))
        /\ is_str (field item "symbol" (PStr "")) = true
        /\ is_dict (field item "data" (PDict [])) = true.
Proof.
  unfold maps_ok, coingecko_result. split.
  - intros [r H]. destruct coin; try discriminate H. exists d.
    rewrite get_field in H. cbn [bind] in H.
    destruct (field d "item" (PDict [])) as [| | | | | |item];
      try discriminate H.
    exists item. split; [reflexivity|]. split; [reflexivity|].
    rewrite ?get_field in H. cbn [bind] in H.
    destruct (calculate_relevance_score (PStr q) (field item "name" (PStr "")))
      as [sc|e] eqn:Esc; [|discriminate H].
    split; [apply score_ok_iff; now exists sc|]. cbn [bind] in H.
    destruct (field item "symbol" (PStr "")) as [| | | |symbol| |];
      try discriminate H.
    split; [reflexivity|]. cbn [bind] in H.
    destruct (field item "data" (PDict [])) as [| | | | | |data];
      try discriminate H.
    reflexivity.
  - intros [d [item [-> [Hitem [Hsc [Hsymbol Hdata]]]]]].
    apply score_ok_iff in Hsc. destruct Hsc as [sc Hsc].
    rewrite get_field, Hitem. cbn [bind]. rewrite ?get_field. cbn [bind].
    rewrite Hsc. cbn [bind].
    destruct (field item "symbol" (PStr "")) as [| | | |symbol| |];
      try discriminate Hsymbol.
    cbn [bind].
    destruct (field item "data" (PDict [])) as [| | | | | |data];
      try discriminate Hdata.
    rewrite ?get_field. cbn [bind]. eexists. reflexivity.
Qed.

(** X16.  The NewsAPI fetcher can map an article, for a string query,
    exactly when the article is an object whose title the scorer accepts,
    whose description is truthy or else whose content can be sliced (a
    string or a list, so not null), and whose source, when present, is an
    object. *)
Theorem newsapi_article_well_formed (q : string) (article : pyval) :
  maps_ok (newsapi_result P (PStr q)) article
  <-> exists d,
        article = PDict d
        /\ scorable q (field d "title" (PStr ""))
        /\ (Py.truthy (field d "description" (PStr "")) = true
            \/ sliceable (field d "content" (PStr "")) = true)
        /\ is_dict (field d "source" (PDict [])) = true.
Proof.
  unfold maps_ok, newsapi_result. split.
  - intros [r H]. destruct article; try discriminate H. exists d.
    split; [reflexivity|]. rewrite ?get_field in H. cbn [bind] in H.
    destruct (calculate_relevance_score (PStr q) (field d "title" (PStr "")))
      as [sc|e] eqn:Esc; [|discriminate H].
    split; [apply score_ok_iff; now exists sc|]. cbn [bind] in H.
    unfold Py.or_else in H.
    destruct (Py.truthy (field d "description" (PStr ""))) eqn:Edesc.
    + split; [now left|]. cbn [bind] in H.
      destruct (field d "source" (PDict [])) as [| | | | | |source];
        try discriminate H.
      reflexivity.
    + cbn [bind] in H.
      destruct (field d "content" (PStr "")) as [| | | |content|content|];
        try discriminate H;
        (split; [now right|]); cbn [bind] in H;
        destruct (field d "source" (PDict [])) as [| | | | | |source];
        try discriminate H; reflexivity.
  - intros [d [-> [Hsc [Hbody Hsource]]]].
    apply score_ok_iff in Hsc. destruct Hsc as [sc Hsc].
    rewrite ?get_field. cbn [bind]. rewrite Hsc. cbn [bind].
    unfold Py.or_else.
    destruct (field d "source" (PDict [])) as [| | | | | |source];
      try discriminate Hsource.
    destruct (Py.truthy (field d "description" (PStr ""))) eqn:Edesc.
    + cbn [bind]. rewrite ?get_field. cbn [bind]. eexists. reflexivity.
    + destruct Hbody as [Hbody | Hbody]; [discriminate Hbody|].
      destruct (field d "content" (PStr "")) as [| | | |content|content|];
        try discriminate Hbody;
        cbn [bind]; rewrite ?get_field; cbn [bind]; eexists; reflexivity.
Qed.

(** X17.  The price fetcher can map an entry of the response exactly when
    its value is an object whose usd, usd_24h_change and usd_market_cap,
    each 0 when missing, can be printed with two decimals: a bool, a float
    or an int that fits a double, so not null and not a string. *)
Theorem price_entry_well_formed (coin_id : string) (price_data : pyval) :
  maps_ok (price_result P) (coin_id, price_data)
  <-> exists d,
        price_data = PDict d
        /\ formattable (field d "usd_24h_change" (PInt 0)) = true
        /\ formattable (field d "usd" (PInt 0)) = true
        /\ formattable (field d "usd_market_cap" (PInt 0)) = true.
Proof.
  unfold maps_ok, price_result. split.
  - intros [r H]. destruct price_data; try discriminate H. exists d.
    split; [reflexivity|]. rewrite ?get_field in H. cbn [bind] in H.
    destruct (Py.gt_zero (field d "usd_24h_change" (PInt 0))) as [rising|e];
      [|discriminate H].
    cbn [bind] in H.
    destruct (format_f P true 2 (field d "usd" (PInt 0))) as [usd|e] eqn:Eusd;
      [|discriminate H].
    cbn [bind] in H.
    destruct (format_f P false 2 (field d "usd_24h_change" (PInt 0)))
      as [change|e] eqn:Echange; [|discriminate H].
    cbn [bind] in H.
    destruct (format_f P true 0 (field d "usd_market_cap" (PInt 0)))
      as [cap|e] eqn:Ecap; [|discriminate H].
    repeat split; eapply format_f_ok_iff; eexists; eassumption.
  - intros [d [-> [Hchange [Husd Hcap]]]].
    rewrite ?get_field. cbn [bind].
    assert (Hgt : exists rising,
               Py.gt_zero (field d "usd_24h_change" (PInt 0)) = Ok rising).
    { destruct (field d "usd_24h_change" (PInt 0)) as [| | |f| | |];
        try discriminate Hchange; try (eexists; reflexivity).
      destruct f; eexists; reflexivity. }
    destruct Hgt as [rising ->]. cbn [bind].
    apply (format_f_ok_iff false 2) in Hchange.
    apply (format_f_ok_iff true 2) in Husd.
    apply (format_f_ok_iff true 0) in Hcap.
    destruct Hchange as [change ->], Husd as [usd ->], Hcap as [cap ->].
    cbn [bind]. eexists. reflexivity.
Qed.
End WellFormedItems.

Lemma cryptopanic_post_well_formed_witness :
  maps_ok (cryptopanic_result Sample.prims (PStr "bitcoin")) (PDict [])
  /\ maps_ok (cryptopanic_result Sample.prims (PStr "bitcoin"))
       (PDict [("title", PNone)]).
Proof.
  split.
  - apply (proj2 (cryptopanic_post_well_formed Sample.prims "bitcoin"
                    (PDict []))).
    exists []. repeat split. right. now left.
  - apply (proj2 (cryptopanic_post_well_formed Sample.prims "bitcoin"
                    (PDict [("title", PNone)]))).
    exists [("title", PNone)]. repeat split. right. now left.
Defined.

Lemma coingecko_coin_well_formed_witness :
  maps_ok (coingecko_result Sample.prims (PStr "bitcoin")) (PDict []).
Proof.
  apply (proj2 (coingecko_coin_well_formed Sample.prims "bitcoin" (PDict []))).
  exists [], []. repeat split. right. now left.
Defined.

Lemma newsapi_article_well_formed_witness :
  ~ maps_ok (newsapi_result Sample.prims (PStr "bitcoin"))
      (PDict [("title", PStr "Bitcoin"); ("content", PNone)]).
Proof.
  intros H.
  apply (proj1 (newsapi_article_well_formed Sample.prims "bitcoin" _)) in H.
  destruct H as [d [Heq [_ [[Hbody | Hbody] _]]]];
    injection Heq as <-; discriminate Hbody.
Defined.

Lemma price_entry_well_formed_witness :
  maps_ok (price_result Sample.prims) ("bitcoin", PDict [])
  /\ ~ maps_ok (price_result Sample.prims)
         ("bitcoin", PDict [("usd", PNone)]).
Proof.
  split.
  - apply (proj2 (price_entry_well_formed Sample.prims "bitcoin" (PDict []))).
    exists []. repeat split.
  - intros H.
    apply (proj1 (price_entry_well_formed Sample.prims "bitcoin" _)) in H.
    destruct H as [d [Heq [_ [Husd _]]]]. injection Heq as <-.
    discriminate Husd.
Defined.

(* ------------------------------------------------------------------ *)
(** ** The empty query *)
(* ------------------------------------------------------------------ *)

Section EmptyQuery.
Variable P : text_prims.
Variable cfg : config.
Variable net : network.

Lemma score_empty_query (text : pyval) (s : Q) :
  calculate_relevance_score (PStr "") text = Ok s -> s = (1 # 2)%Q.
Proof. intros H. now injection H as <-. Qed.

(** X18.  The empty query is served like any other, from the same
    sources, and every result the aggregator returns for it scores exactly
    0.5, or 0.9 when it is a price update. *)
Theorem empty_query_scores (filter_param : pyval) :
  exists out,
    fetch_crypto_news P cfg net (PStr "") filter_param = Ok out
    /\ out = rank_and_limit (concatenated P cfg net "")
    /\ Forall half_or_price out.
Proof.
  rewrite fetch_crypto_news_eq. eexists. split; [reflexivity|].
  split; [reflexivity|].
  apply rank_and_limit_Forall. unfold concatenated.
  repeat rewrite Forall_app. repeat split.
  - unfold out_coingecko.
    destruct (coingecko_shape P net (PStr "")) as [items [_ ->]].
    apply records_until_error_Forall. intros x r H.
    apply coingecko_result_scored in H. destruct H as [text [_ H]].
    left. now apply score_empty_query in H.
  - unfold out_cryptopanic.
    destruct (Py.truthy (PStr (CRYPTOPANIC_API_KEY cfg))); [|constructor].
    destruct (cryptopanic_shape P cfg net (PStr "")) as [items [_ ->]].
    apply records_until_error_Forall. intros x r H.
    apply cryptopanic_result_scored in H. destruct H as [[text [_ H]] _].
    left. now apply score_empty_query in H.
  - unfold out_prices.
    destruct (prices_shape P net "") as [items ->].
    apply records_until_error_Forall. intros x r H.
    right. now apply price_result_score in H.
  - unfold out_newsapi.
    destruct (Py.truthy (PStr (NEWSAPI_KEY cfg))); [|constructor].
    destruct (newsapi_shape P cfg net (PStr "")) as [items [_ ->]].
    apply records_until_error_Forall. intros x r H.
    apply newsapi_result_scored in H. destruct H as [[text [_ H]] _].
    left. now apply score_empty_query in H.
Qed.
End EmptyQuery.

(* ------------------------------------------------------------------ *)
(** ** The endpoints: properties *)
(* ------------------------------------------------------------------ *)

Section EndpointFacts.
Variable P : text_prims.
Variable cfg : config.
Variable net : network.
Variable exn_text : pyexn -> string.

Lemma search_body (d : list (string * pyval)) :
  search P cfg net exn_text (Body (PDict d))
  = match fetch_crypto_news P cfg net (field d "query" (PStr ""))
            (field d "filter" (PStr "")) with
    | Ok news_results =>
        {| http_status := 200; error := None;
           search_results := news_results |}
    | Raise e =>
        {| http_status := 500; error := Some (exn_text e);
           search_results := [] |}
    end.
Proof. unfold search. now rewrite !get_field. Qed.

Lemma search_asked (request : request_json) (q : string) :
  asks_for request q ->
  search P cfg net exn_text request
  = {| http_status := 200; error := None;
       search_results := rank_and_limit (concatenated P cfg net q) |}.
Proof.
  intros [d [-> Hq]]. rewrite search_body, Hq. now rewrite fetch_crypto_news_eq.
Qed.

Lemma search_not_asked (request : request_json) :
  (forall q, ~ asks_for request q) ->
  http_status (search P cfg net exn_text request) = 500%Z
  /\ search_results (search P cfg net exn_text request) = []
  /\ error (search P cfg net exn_text request) <> None.
Proof.
  intros Hno. destruct request as [message|data].
  - simpl. repeat split. discriminate.
  - destruct data;
      try (unfold search; simpl; repeat split; discriminate).
    rewrite search_body.
    destruct (is_str (field d "query" (PStr ""))) eqn:Hq.
    + destruct (field d "query" (PStr "")) eqn:E; try discriminate Hq.
      exfalso. apply (Hno s). now exists d.
    + rewrite fetch_crypto_news_non_string by exact Hq.
      simpl. repeat split. discriminate.
Qed.

(** X19.  The search endpoint answers 200 exactly when the request carries
    a JSON object whose query is a string (a missing query counts as the
    empty string); the body then holds at most 10 results and no error.
    In every other case - no JSON, a body that is not an object, a query
    that is null, a number or a list - it answers 500 with an error text
    and an empty result list. *)
Theorem search_status (request : request_json) :
  let answer := search P cfg net exn_text request in
  ((exists q, asks_for request q) ->
   http_status answer = 200%Z /\ error answer = None
   /\ List.length (search_results answer) <= 10)
  /\ ((forall q, ~ asks_for request q) ->
      http_status answer = 500%Z /\ search_results answer = []
      /\ error answer <> None).
Proof.
  cbv zeta. split.
  - intros [q Hq]. rewrite (search_asked request q Hq). simpl.
    repeat split. rewrite rank_and_limit_length. lia.
  - apply search_not_asked.
Qed.

(** X20.  What the search endpoint returns for a query string is the
    ranking of the four source outputs: sorted by non-increasing score,
    every score between 0.5 and 0.95. *)
Theorem search_returns_the_ranking (request : request_json) (q : string) :
  asks_for request q ->
  let results := search_results (search P cfg net exn_text request) in
  results = rank_and_limit (concatenated P cfg net q)
  /\ StronglySorted (descending score) results
  /\ Forall score_in_range results.
Proof.
  intros Hq. cbv zeta. rewrite (search_asked request q Hq). simpl.
  split; [reflexivity|]. split; [apply rank_and_limit_sorted|].
  pose proof (fetch_crypto_news_in_range P cfg net (PStr q) (PStr "")) as H.
  now rewrite fetch_crypto_news_eq in H.
Qed.

(** X21.  The search endpoint reads nothing of the body but its query: two
    JSON objects with the same query get the same answer, whatever their
    filter, metadata or other fields. *)
Theorem search_reads_the_query_only (d d' : list (string * pyval)) :
  field d "query" (PStr "") = field d' "query" (PStr "") ->
  search P cfg net exn_text (Body (PDict d))
  = search P cfg net exn_text (Body (PDict d')).
Proof.
  intros H. rewrite !search_body, H. reflexivity.
Qed.

Lemma truthy_empty_key (key : string) :
  Py.truthy (PStr key) = false <-> key = "".
Proof. apply PyStrFacts.truthy_str. Qed.

(** X22.  The root endpoint and the aggregator agree on which keyed
    sources are on: [home] reports "No API key" for CryptoPanic (NewsAPI)
    exactly when its key is empty, and then that source contributes
    nothing to any search; otherwise it reports it active. *)
Theorem home_reports_the_keyed_sources :
  (reported cfg "cryptopanic" = Ok NO_API_KEY
   <-> CRYPTOPANIC_API_KEY cfg = "")
  /\ (reported cfg "newsapi" = Ok NO_API_KEY <-> NEWSAPI_KEY cfg = "")
  /\ (CRYPTOPANIC_API_KEY cfg <> "" -> reported cfg "cryptopanic" = Ok ACTIVE)
  /\ (NEWSAPI_KEY cfg <> "" -> reported cfg "newsapi" = Ok ACTIVE)
  /\ (CRYPTOPANIC_API_KEY cfg = "" ->
      forall q, out_cryptopanic P cfg net q = [])
  /\ (NEWSAPI_KEY cfg = "" -> forall q, out_newsapi P cfg net q = []).
Proof.
  unfold reported, home, NO_API_KEY, ACTIVE. cbn [bind Py.get Py.lookup].
  change (String.eqb "service" "data_sources") with false.
  change (String.eqb "version" "data_sources") with false.
  change (String.eqb "status" "data_sources") with false.
  change (String.eqb "data_sources" "data_sources") with true.
  cbn [bind Py.get Py.lookup].
  change (String.eqb "coingecko" "cryptopanic") with false.
  change (String.eqb "cryptopanic" "cryptopanic") with true.
  change (String.eqb "coingecko" "newsapi") with false.
  change (String.eqb "cryptopanic" "newsapi") with false.
  change (String.eqb "newsapi" "newsapi") with true.
  cbv iota.
  repeat split.
  - destruct (Py.truthy (PStr (CRYPTOPANIC_API_KEY cfg))) eqn:E;
      [discriminate | intros _; now apply truthy_empty_key].
  - intros H. apply truthy_empty_key in H. now rewrite H.
  - destruct (Py.truthy (PStr (NEWSAPI_KEY cfg))) eqn:E;
      [discriminate | intros _; now apply truthy_empty_key].
  - intros H. apply truthy_empty_key in H. now rewrite H.
  - intros H. apply truthy_key in H. now rewrite H.
  - intros H. apply truthy_key in H. now rewrite H.
  - intros H q. unfold out_cryptopanic. apply truthy_empty_key in H.
    now rewrite H.
  - intros H q. unfold out_newsapi. apply truthy_empty_key in H.
    now rewrite H.
Qed.
End EndpointFacts.

Lemma search_status_witness :
  http_status
    (search Sample.prims Sample.keys Sample.net SampleMore.exn_name
       (Body (PDict [("query", PStr "bitcoin")]))) = 200%Z
  /\ http_status
       (search Sample.prims Sample.keys Sample.net SampleMore.exn_name
          (Body (PDict [("query", PNone)]))) = 500%Z
  /\ http_status
       (search Sample.prims Sample.keys Sample.net SampleMore.exn_name
          (Body (PList []))) = 500%Z.
Proof.
  split; [|split].
  - destruct (search_status Sample.prims Sample.keys Sample.net
                SampleMore.exn_name (Body (PDict [("query", PStr "bitcoin")])))
      as [H _].
    apply H. exists "bitcoin", [("query", PStr "bitcoin")]. now split.
  - destruct (search_status Sample.prims Sample.keys Sample.net
                SampleMore.exn_name (Body (PDict [("query", PNone)])))
      as [_ H].
    apply H. intros q [d [Heq Hq]]. injection Heq as <-. discriminate Hq.
  - destruct (search_status Sample.prims Sample.keys Sample.net
                SampleMore.exn_name (Body (PList []))) as [_ H].
    apply H. intros q [d [Heq Hq]]. discriminate Heq.
Defined.

Lemma search_returns_the_ranking_witness :
  search_results
    (search Sample.prims Sample.keys Sample.net SampleMore.exn_name
       (Body (PDict [("filter", PStr "news"); ("query", PStr "bitcoin")])))
  = rank_and_limit (concatenated Sample.prims Sample.keys Sample.net "bitcoin").
Proof.
  apply (search_returns_the_ranking Sample.prims Sample.keys Sample.net
           SampleMore.exn_name
           (Body (PDict [("filter", PStr "news"); ("query", PStr "bitcoin")]))
           "bitcoin").
  exists [("filter", PStr "news"); ("query", PStr "bitcoin")]. now split.
Defined.

Lemma search_reads_the_query_only_witness :
  search Sample.prims Sample.keys Sample.net SampleMore.exn_name
    (Body (PDict [("query", PStr "bitcoin")]))
  = search Sample.prims Sample.keys Sample.net SampleMore.exn_name
      (Body (PDict [("filter", PStr "news"); ("query", PStr "bitcoin");
                    ("metadata", PDict [])])).
Proof.
  apply search_reads_the_query_only. reflexivity.
Defined.

Lemma home_reports_the_keyed_sources_witness :
  reported SampleMore.no_keys "cryptopanic" = Ok NO_API_KEY
  /\ reported Sample.keys "newsapi" = Ok ACTIVE.
Proof.
  split.
  - apply (proj1 (home_reports_the_keyed_sources Sample.prims
                    SampleMore.no_keys Sample.net)). reflexivity.
  - destruct (home_reports_the_keyed_sources Sample.prims Sample.keys
                Sample.net) as [_ [_ [_ [H _]]]].
    apply H. discriminate.
Defined.

(* ------------------------------------------------------------------ *)
(** ** The case of the query *)
(* ------------------------------------------------------------------ *)

Section QueryCase.
Import PyStr PyStrFacts.
Variable P : text_prims.
Variable cfg : config.
Variable net : network.

Lemma truthy_lower (q : string) :
  Py.truthy (PStr (lower q)) = Py.truthy (PStr q).
Proof. now destruct q. Qed.

(** The scorer reads a string query through [lower] only, whatever the
    text is. *)
Lemma score_query_case (q q' : string) (text : pyval) :
  lower q = lower q' ->
  calculate_relevance_score (PStr q) text
  = calculate_relevance_score (PStr q') text.
Proof.
  intros H. rewrite (score_dynamic (PStr q)), (score_dynamic (PStr q')).
  rewrite <- (truthy_lower q), <- (truthy_lower q'), H.
  destruct (negb (Py.truthy (PStr (lower q'))) || negb (Py.truthy text));
    [reflexivity|].
  destruct text; try reflexivity.
  rewrite (score_of_lowered q), (score_of_lowered q'). now rewrite H.
Qed.

Lemma for_append_ext {A : Type} (mk mk' : A -> res SearchResult)
    (items : list A) (results : list SearchResult) :
  (forall x, mk x = mk' x) ->
  Block.for_append mk items results = Block.for_append mk' items results.
Proof.
  intros H. revert results. induction items as [|x items IH];
    intros results; simpl; [reflexivity|].
  unfold Block.seq, Block.lift, Block.append. rewrite H.
  destruct (mk' x); [apply IH | reflexivity].
Qed.

Lemma coingecko_result_case (q q' : string) (coin : pyval) :
  lower q = lower q' ->
  coingecko_result P (PStr q) coin = coingecko_result P (PStr q') coin.
Proof.
  intros H. unfold coingecko_result.
  destruct (Py.get coin "item" (PDict [])) as [coin_data|e];
    [|reflexivity].
  cbn [bind].
  destruct (Py.get coin_data "name" (PStr "")) as [name|e]; [|reflexivity].
  cbn [bind]. now rewrite (score_query_case q q' name H).
Qed.

Lemma cryptopanic_result_case (q q' : string) (post : pyval) :
  lower q = lower q' ->
  cryptopanic_result P (PStr q) post = cryptopanic_result P (PStr q') post.
Proof.
  intros H. unfold cryptopanic_result.
  destruct (Py.get post "title" (PStr "")) as [post_title|e];
    [|reflexivity].
  cbn [bind]. now rewrite (score_query_case q q' post_title H).
Qed.

Lemma newsapi_result_case (q q' : string) (article : pyval) :
  lower q = lower q' ->
  newsapi_result P (PStr q) article = newsapi_result P (PStr q') article.
Proof.
  intros H. unfold newsapi_result.
  destruct (Py.get article "title" (PStr "")) as [article_title|e];
    [|reflexivity].
  cbn [bind]. now rewrite (score_query_case q q' article_title H).
Qed.

Lemma fetch_crypto_news_case (q q' : string) (filter_param : pyval) :
  lower q = lower q' ->
  fetch_crypto_news P cfg net (PStr q) filter_param
  = fetch_crypto_news P cfg net (PStr q') filter_param.
Proof.
  intros H.
  assert (Hcg : fetch_from_coingecko P net (PStr q)
                = fetch_from_coingecko P net (PStr q')).
  { unfold fetch_from_coingecko, coingecko_try. open_try.
    destruct (net coingecko_url) as [resp|e]; [|reflexivity].
    destruct (status_code resp =? 200)%Z; [|reflexivity].
    destruct (json resp) as [data|e]; [|reflexivity].
    destruct (coingecko_coins data) as [coins|e]; [|reflexivity].
    rewrite (for_append_ext (coingecko_result P (PStr q))
               (coingecko_result P (PStr q')));
      [reflexivity | intros x; now apply coingecko_result_case]. }
  assert (Hcp : fetch_from_cryptopanic P cfg net (PStr q)
                = fetch_from_cryptopanic P cfg net (PStr q')).
  { unfold fetch_from_cryptopanic, cryptopanic_try. open_try. rewrite H.
    destruct (net _) as [resp|e]; [|reflexivity].
    destruct (status_code resp =? 200)%Z; [|reflexivity].
    destruct (json resp) as [data|e]; [|reflexivity].
    destruct (cryptopanic_posts data) as [posts|e]; [|reflexivity].
    rewrite (for_append_ext (cryptopanic_result P (PStr q))
               (cryptopanic_result P (PStr q')));
      [reflexivity | intros x; now apply cryptopanic_result_case]. }
  assert (Hpr : fetch_crypto_prices P net (PStr q)
                = fetch_crypto_prices P net (PStr q')).
  { unfold fetch_crypto_prices, bind, Py.lower. now rewrite H. }
  assert (Hnw : fetch_from_newsapi P cfg net (PStr q)
                = fetch_from_newsapi P cfg net (PStr q')).
  { unfold fetch_from_newsapi, newsapi_try. open_try.
    destruct (net _) as [resp|e]; [|reflexivity].
    destruct (status_code resp =? 200)%Z; [|reflexivity].
    destruct (json resp) as [data|e]; [|reflexivity].
    destruct (newsapi_articles data) as [articles|e]; [|reflexivity].
    rewrite (for_append_ext (newsapi_result P (PStr q))
               (newsapi_result P (PStr q')));
      [reflexivity | intros x; now apply newsapi_result_case]. }
  unfold fetch_crypto_news, extend_if. now rewrite Hcg, Hcp, Hpr, Hnw.
Qed.

(** X23.  The whole aggregation is case-insensitive in the query: two
    query strings with the same lowercase form make the same requests and
    get the same results, records and order included. *)
Theorem aggregation_ignores_query_case (q q' : string)
    (filter_param : pyval) :
  lower q = lower q' ->
  fetch_crypto_news P cfg net (PStr q) filter_param
  = fetch_crypto_news P cfg net (PStr q') filter_param
  /\ cryptopanic_url cfg (lower q) = cryptopanic_url cfg (lower q')
  /\ prices_url (select_coin_ids (lower q))
     = prices_url (select_coin_ids (lower q')).
Proof.
  intros H. split; [now apply fetch_crypto_news_case|].
  now rewrite H.
Qed.

End QueryCase.

Lemma aggregation_ignores_query_case_witness :
  fetch_crypto_news Sample.prims Sample.keys Sample.net (PStr "BitCoin")
    (PStr "")
  = fetch_crypto_news Sample.prims Sample.keys Sample.net (PStr "bitcoin")
      (PStr "").
Proof.
  apply (aggregation_ignores_query_case Sample.prims Sample.keys Sample.net
           "BitCoin" "bitcoin" (PStr "")).
  reflexivity.
Defined.

